(** * The dnsmasq supervisor of the QEMU backend

    A shallow embedding of [src/platform/backends/qemu/dnsmasq_server.cpp]:
    the class [DNSMasqServer] with its constructor, destructor,
    [get_ip_for], [release_mac], [check_dnsmasq_running] and
    [start_dnsmasq].

    The member functions are stateful and talk to the outside (the lease
    file, the dnsmasq process, the dhcp_release helper, the log).  They are
    written in a small state-and-exception monad over the object and a
    [World]; every outward call is appended to the world's [trace], and what
    the outside answers is read from the world's [Env]. *)

From Stdlib Require Import Ascii.
From stdpp Require Import gmap strings list pretty.

Open Scope string_scope.
Open Scope Z_scope.

(** ** Collaborators outside this translation unit *)

(** [utils::split], [IPAddress] and [QDir] are declared in headers that the
    translation unit only includes.  The development is generic in them:
    a [Platform] supplies
    - [split line delimiter], the fields of a line,
    - the type [IPAddress], its construction from a string (taken to
      return here; [get_ip_for_checked] has the constructor that may
      throw) and [as_string],
    - [filePath dir name] and [absoluteFilePath dir name] of [QDir(dir)]. *)
Class Platform := {
  split : string → string → list string;
  IPAddress : Type;
  IPAddress_from_string : string → IPAddress;
  as_string : IPAddress → string;
  filePath : string → string → string;
  absoluteFilePath : string → string → string;
}.

(** ** Logging *)

Inductive Level := error | warning | info | debug.

(** ** The helper process (QProcess) *)

Inductive ProcessError :=
  FailedToStart | Crashed | Timedout | ReadError | WriteError | UnknownError.

Inductive ExitStatus := NormalExit | CrashExit.

#[export] Instance ExitStatus_eq_dec : EqDecision ExitStatus.
Proof. solve_decision. Defined.

(** The signals of [QProcess] that [release_mac] connects to. *)
Inductive QProcessSignal :=
| errorOccurred (e : ProcessError)
| finished (exit_code : Z) (exit_status : ExitStatus).

(** [utils::qenum_to_string]: the name of the enumerator. *)
Definition qenum_to_string (e : ProcessError) : string :=
  match e with
  | FailedToStart => "FailedToStart"
  | Crashed => "Crashed"
  | Timedout => "Timedout"
  | ReadError => "ReadError"
  | WriteError => "WriteError"
  | UnknownError => "UnknownError"
  end.

(** ** The daemon process *)

(** The arguments of [DNSMasqProcessSpec]'s constructor. *)
Record DNSMasqProcessSpec := {
  spec_data_dir : string;
  spec_bridge_name : string;
  spec_subnet : string;
  spec_conf_file_path : string;
}.

(** A [Process] made by the process factory; [pid] identifies it in the
    trace and towards the environment. *)
Record Process := {
  pid : nat;
  process_spec : DNSMasqProcessSpec;
}.

(** [QMetaObject::Connection]: default-constructed, or the connection of
    the [finished] signal of a process. *)
Inductive Connection := NoConnection | FinishedOf (sender : nat).

(** [ProcessState]: what the [finished] signal of the daemon carries. *)
Record ProcessState := {
  state_exit_code : option Z;
  state_failure_message : string;
}.

(** ** Outward calls *)

Inductive Event :=
| EvLog (level : Level) (category message : string)
| EvCreateProcess (p : Process)
| EvStart (p : nat)
| EvWaitForStarted (p : nat) (started : bool)
| EvConnectFinished (p : nat)
| EvDisconnect (c : Connection)
| EvTerminate (p : nat)
| EvKill (p : nat)
| EvWaitForFinished (p : nat) (msecs : Z) (finished : bool)
| EvHelperStart (program : string) (arguments : list string)
| EvHelperWaitForFinished.

(** ** The world *)

(** What the outside answers.  Each field is asked at most once with the
    same arguments during one member function. *)
Record Env := {
  (** the names [QTemporaryFile] tries for a template, in order *)
  temp_names : string → list string;
  (** [Process::wait_for_started] of process [p] *)
  started_in_time : nat → bool;
  (** [process_state().failure_message()] of process [p] *)
  failure_detail : nat → string;
  (** [Process::running] of process [p] *)
  is_running : nat → bool;
  (** [Process::wait_for_finished(msecs)] of process [p] *)
  finished_within : nat → Z → bool;
  (** the signals a helper run delivers until [waitForFinished] returns *)
  helper_signals : string → list string → list QProcessSignal;
}.

(** A file that exists: its contents, or no permission to read it. *)
Inductive File := Readable (content : string) | Unreadable.

Record World := {
  env : Env;
  (** the files that exist; a path outside the map is a missing file *)
  files : gmap string File;
  (** the outward calls so far, oldest first *)
  trace : list Event;
  (** the identity the process factory gives out next *)
  next_pid : nat;
}.

Definition emit (e : Event) (w : World) : World :=
  {| env := env w; files := files w; trace := trace w ++ [e];
     next_pid := next_pid w |}.

Definition create_file (path : string) (w : World) : World :=
  {| env := env w; files := <[path := Readable ""]> (files w);
     trace := trace w; next_pid := next_pid w |}.

Definition file_exists (path : string) (w : World) : bool :=
  match files w !! path with Some _ => true | None => false end.

Definition bump_pid (w : World) : World :=
  {| env := env w; files := files w; trace := trace w;
     next_pid := S (next_pid w) |}.

(** ** The object *)

(** [QTemporaryFile]: [fileName] is empty until [open] has succeeded. *)
Record QTemporaryFile := {
  templateName : string;
  fileName : string;
}.

Record DNSMasqServer := {
  data_dir : string;
  bridge_name : string;
  subnet : string;
  conf_file : QTemporaryFile;
  dnsmasq_cmd : option Process;
  finish_connection : Connection;
}.

Definition set_dnsmasq_cmd (p : Process) (s : DNSMasqServer) : DNSMasqServer :=
  {| data_dir := data_dir s; bridge_name := bridge_name s; subnet := subnet s;
     conf_file := conf_file s; dnsmasq_cmd := Some p;
     finish_connection := finish_connection s |}.

Definition set_finish_connection (c : Connection) (s : DNSMasqServer)
  : DNSMasqServer :=
  {| data_dir := data_dir s; bridge_name := bridge_name s; subnet := subnet s;
     conf_file := conf_file s; dnsmasq_cmd := dnsmasq_cmd s;
     finish_connection := c |}.

Definition set_conf_file (f : QTemporaryFile) (s : DNSMasqServer)
  : DNSMasqServer :=
  {| data_dir := data_dir s; bridge_name := bridge_name s; subnet := subnet s;
     conf_file := f; dnsmasq_cmd := dnsmasq_cmd s;
     finish_connection := finish_connection s |}.

(** ** The monad of member functions *)

(** A member function returns, throws [std::runtime_error(what)], or
    dereferences a null [dnsmasq_cmd]. *)
Inductive Outcome (A : Type) :=
| Returns (a : A)
| Throws (what : string)
| NullDereference.
Arguments Returns {A} a.
Arguments Throws {A} what.
Arguments NullDereference {A}.

Definition Op (A : Type) : Type :=
  DNSMasqServer * World → Outcome A * (DNSMasqServer * World).

#[export] Instance Op_ret : MRet Op := λ A a sw, (Returns a, sw).

#[export] Instance Op_bind : MBind Op := λ A B k m sw,
  match m sw with
  | (Returns a, sw') => k a sw'
  | (Throws what, sw') => (Throws what, sw')
  | (NullDereference, sw') => (NullDereference, sw')
  end.

Definition this : Op DNSMasqServer := λ sw, (Returns sw.1, sw).
Definition the_world : Op World := λ sw, (Returns sw.2, sw).
Definition assign (f : DNSMasqServer → DNSMasqServer) : Op unit :=
  λ sw, (Returns tt, (f sw.1, sw.2)).
Definition change_world (f : World → World) : Op unit :=
  λ sw, (Returns tt, (sw.1, f sw.2)).
Definition outward (e : Event) : Op unit := change_world (emit e).
Definition throw {A} (what : string) : Op A := λ sw, (Throws what, sw).

(** [mpl::log(level, category, message)] *)
Definition log (l : Level) (category message : string) : Op unit :=
  outward (EvLog l category message).

(** [dnsmasq_cmd->...]: the process behind the pointer. *)
Definition deref_dnsmasq_cmd : Op Process := λ sw,
  match dnsmasq_cmd sw.1 with
  | Some p => (Returns p, sw)
  | None => (NullDereference, sw)
  end.

(** ** Reading the lease file *)

Definition newline : ascii := "010"%char.

(** The characters of [s] up to the next newline or the end, and what is
    left after that newline. *)
Fixpoint read_line (s : string) : string * string :=
  match s with
  | EmptyString => (EmptyString, EmptyString)
  | String c rest =>
      if Ascii.eqb c newline then (EmptyString, rest)
      else let '(l, r) := read_line rest in (String c l, r)
  end.

(** One [std::getline(stream, line)] on a stream with [s] left to read:
    [None] when nothing is left (the stream fails and the loop ends),
    otherwise the line and the rest of the stream. *)
Definition getline (s : string) : option (string * string) :=
  match s with
  | EmptyString => None
  | _ => Some (read_line s)
  end.

(** The lines that successive [getline] calls deliver. *)
Fixpoint getlines (s : string) : list string :=
  match s with
  | EmptyString => []
  | String c rest =>
      if Ascii.eqb c newline then EmptyString :: getlines rest
      else match getlines rest with
           | [] => [String c EmptyString]
           | l :: ls => String c l :: ls
           end
  end.

(** [std::ifstream leases_file{path}] followed by the [getline] loop: a
    file that cannot be opened delivers no line. *)
Definition ifstream_lines (path : string) : Op (list string) :=
  w ← the_world;
  mret (match files w !! path with
        | Some (Readable content) => getlines content
        | Some Unreadable | None => []
        end).

(** [fields[i]] of a [std::vector<std::string>]; only used below the
    vector's size. *)
Definition at_index (fields : list string) (i : nat) : string :=
  nth i fields EmptyString.

Section Server.
Context `{Platform}.

Definition delimiter : string := " ".
Definition hw_addr_idx : nat := 1.
Definition ipv4_idx : nat := 2.

(** The body of [while (getline(leases_file, line))] in [get_ip_for]. *)
Fixpoint scan_leases (hw_addr : string) (lines : list string)
  : option IPAddress :=
  match lines with
  | [] => None
  | line :: rest =>
      let fields := split line delimiter in
      if (2 <? length fields)%nat && String.eqb (at_index fields hw_addr_idx) hw_addr
      then Some (IPAddress_from_string (at_index fields ipv4_idx))
      else scan_leases hw_addr rest
  end.

(** The file [get_ip_for] reads. *)
Definition leases_path (s : DNSMasqServer) : string :=
  filePath (data_dir s) "dnsmasq.leases".

(** [DNSMasqServer::get_ip_for] *)
Definition get_ip_for (hw_addr : string) : Op (option IPAddress) :=
  s ← this;
  let path := leases_path s in
  lines ← ifstream_lines path;
  mret (scan_leases hw_addr lines).

(** *** The daemon's process handle *)

(** [make_dnsmasq_process]: the process factory makes a new [Process]
    from the spec. *)
Definition make_dnsmasq_process
    (data_dir bridge_name subnet conf_file_path : string) : Op Process :=
  w ← the_world;
  let process_spec :=
    {| spec_data_dir := data_dir; spec_bridge_name := bridge_name;
       spec_subnet := subnet; spec_conf_file_path := conf_file_path |} in
  let p := {| pid := next_pid w; process_spec := process_spec |} in
  change_world bump_pid;;
  outward (EvCreateProcess p);;
  mret p.

Definition Process_start (p : Process) : Op unit :=
  outward (EvStart (pid p)).

Definition Process_wait_for_started (p : Process) : Op bool :=
  w ← the_world;
  let r := started_in_time (env w) (pid p) in
  outward (EvWaitForStarted (pid p) r);;
  mret r.

Definition Process_failure_message (p : Process) : Op string :=
  w ← the_world;
  mret (failure_detail (env w) (pid p)).

Definition Process_running (p : Process) : Op bool :=
  w ← the_world;
  mret (is_running (env w) (pid p)).

Definition Process_terminate (p : Process) : Op unit :=
  outward (EvTerminate (pid p)).

Definition Process_kill (p : Process) : Op unit :=
  outward (EvKill (pid p)).

Definition Process_wait_for_finished (msecs : Z) (p : Process) : Op bool :=
  w ← the_world;
  let r := finished_within (env w) (pid p) msecs in
  outward (EvWaitForFinished (pid p) msecs r);;
  mret r.

(** [QObject::connect(dnsmasq_cmd.get(), &Process::finished, ...)] *)
Definition connect_finished (p : Process) : Op Connection :=
  outward (EvConnectFinished (pid p));;
  mret (FinishedOf (pid p)).

Definition isEmpty (s : string) : bool := String.eqb s "".

(** The slot that [start_dnsmasq] connects to the daemon's [finished]
    signal. *)
Definition on_dnsmasq_finished (process_state : ProcessState) : Op unit :=
  let err_msg := "died" in
  let err_detail := state_failure_message process_state in
  let err_msg :=
    if negb (isEmpty err_detail) then err_msg +:+ ": " +:+ err_detail
    else err_msg in
  let err_msg :=
    if bool_decide (state_exit_code process_state = Some 2)
    then err_msg +:+ ". Ensure nothing is using port 53."
    else err_msg in
  log error "dnsmasq" err_msg.

(** [DNSMasqServer::start_dnsmasq].  Assigning [dnsmasq_cmd] drops the
    process held before; what [~Process] does is outside this translation
    unit. *)
Definition start_dnsmasq : Op unit :=
  log debug "dnsmasq" "Starting dnsmasq";;
  s ← this;
  p ← make_dnsmasq_process (data_dir s) (bridge_name s) (subnet s)
        (fileName (conf_file s));
  assign (set_dnsmasq_cmd p);;
  deref_dnsmasq_cmd ≫= Process_start;;
  started ← deref_dnsmasq_cmd ≫= Process_wait_for_started;
  if negb started then
    let err_msg := "Multipass dnsmasq failed to start" in
    err_detail ← deref_dnsmasq_cmd ≫= Process_failure_message;
    let err_msg :=
      if negb (isEmpty err_detail) then err_msg +:+ ": " +:+ err_detail
      else err_msg in
    deref_dnsmasq_cmd ≫= Process_kill;;
    throw err_msg
  else
    c ← deref_dnsmasq_cmd ≫= connect_finished;
    assign (set_finish_connection c).

(** [DNSMasqServer::check_dnsmasq_running] *)
Definition check_dnsmasq_running : Op unit :=
  running ← deref_dnsmasq_cmd ≫= Process_running;
  if negb running then
    log warning "dnsmasq" "Not running";;
    start_dnsmasq
  else mret tt.

(** *** Releasing a lease *)

(** The slot connected to [QProcess::errorOccurred]. *)
Definition on_error_occurred (ip : IPAddress) (hw_addr : string)
    (e : ProcessError) : Op unit :=
  log warning "dnsmasq"
    ("failed to release ip addr " +:+ as_string ip +:+ " with mac "
       +:+ hw_addr +:+ ": " +:+ qenum_to_string e).

(** The slot connected to [QProcess::finished]. *)
Definition log_exit_status (ip : IPAddress) (hw_addr : string)
    (exit_code : Z) (exit_status : ExitStatus) : Op unit :=
  if (exit_code =? 0) && bool_decide (exit_status = NormalExit) then mret tt
  else
    let msg := "failed to release ip addr " +:+ as_string ip +:+ " with mac "
                 +:+ hw_addr +:+ ", exit_code: " +:+ pretty exit_code in
    log warning "dnsmasq" msg.

(** A signal of the helper reaches the slot connected to it. *)
Definition deliver (ip : IPAddress) (hw_addr : string) (sg : QProcessSignal)
  : Op unit :=
  match sg with
  | errorOccurred e => on_error_occurred ip hw_addr e
  | finished exit_code exit_status =>
      log_exit_status ip hw_addr exit_code exit_status
  end.

Fixpoint deliver_all (ip : IPAddress) (hw_addr : string)
    (sgs : list QProcessSignal) : Op unit :=
  match sgs with
  | [] => mret tt
  | sg :: rest => deliver ip hw_addr sg;; deliver_all ip hw_addr rest
  end.

(** [dhcp_release.start(program, arguments)] *)
Definition QProcess_start (program : string) (arguments : list string)
  : Op unit :=
  outward (EvHelperStart program arguments).

(** [dhcp_release.waitForFinished()]: blocks, and the signals of the run
    reach their slots meanwhile. *)
Definition QProcess_waitForFinished (ip : IPAddress) (hw_addr : string)
    (program : string) (arguments : list string) : Op unit :=
  outward EvHelperWaitForFinished;;
  w ← the_world;
  deliver_all ip hw_addr (helper_signals (env w) program arguments).

(** [DNSMasqServer::release_mac] *)
Definition release_mac (hw_addr : string) : Op unit :=
  ip ← get_ip_for hw_addr;
  match ip with
  | None =>
      log warning "dnsmasq"
        ("attempting to release non-existant addr: " +:+ hw_addr)
  | Some ip =>
      s ← this;
      let arguments := [bridge_name s; as_string ip; hw_addr] in
      QProcess_start "dhcp_release" arguments;;
      QProcess_waitForFinished ip hw_addr "dhcp_release" arguments
  end.

(** *** Construction and destruction *)

(** [conf_file.open()]: the first name of the template that no existing
    file has is created; without one [open] fails and [fileName] stays
    empty. *)
Definition conf_file_open : Op bool :=
  s ← this;
  w ← the_world;
  let template := templateName (conf_file s) in
  match List.find (λ name, negb (file_exists name w))
          (temp_names (env w) template) with
  | Some name =>
      change_world (create_file name);;
      assign (set_conf_file {| templateName := template; fileName := name |});;
      mret true
  | None => mret false
  end.

(** [conf_file.close()] keeps the file and its name. *)
Definition conf_file_close : Op unit := mret tt.

(** The member initialisers of the constructor. *)
Definition initial (data_dir bridge_name subnet : string) : DNSMasqServer :=
  {| data_dir := data_dir; bridge_name := bridge_name; subnet := subnet;
     conf_file :=
       {| templateName := absoluteFilePath data_dir "dnsmasq-XXXXXX.conf";
          fileName := "" |};
     dnsmasq_cmd := None;
     finish_connection := NoConnection |}.

(** The body of the constructor; the result of [open] is not looked at. *)
Definition constructor_body : Op unit :=
  conf_file_open;;
  conf_file_close;;
  start_dnsmasq.

(** [DNSMasqServer::DNSMasqServer]: the object when the body returns, the
    exception when it throws. *)
Definition DNSMasqServer_new (data_dir bridge_name subnet : string)
    (w : World) : Outcome DNSMasqServer * World :=
  match constructor_body (initial data_dir bridge_name subnet, w) with
  | (Returns _, (s, w')) => (Returns s, w')
  | (Throws what, (_, w')) => (Throws what, w')
  | (NullDereference, (_, w')) => (NullDereference, w')
  end.

(** [DNSMasqServer::~DNSMasqServer] *)
Definition DNSMasqServer_delete : Op unit :=
  s ← this;
  outward (EvDisconnect (finish_connection s));;
  log debug "dnsmasq" "terminating";;
  deref_dnsmasq_cmd ≫= Process_terminate;;
  finished ← deref_dnsmasq_cmd ≫= Process_wait_for_finished 1000;
  if negb finished then
    log info "dnsmasq" "failed to terminate nicely, killing";;
    deref_dnsmasq_cmd ≫= Process_kill;;
    finished ← deref_dnsmasq_cmd ≫= Process_wait_for_finished 100;
    if negb finished then log warning "dnsmasq" "failed to kill"
    else mret tt
  else mret tt.

End Server.

(** ** Vocabulary of the lease file *)

Section LeaseFile.
Context `{Platform}.

(** The fields of a line, as [get_ip_for] splits it. *)
Definition fields_of (line : string) : list string := split line delimiter.

(** Field index 1, the hardware address. *)
Definition hw_field (line : string) : string :=
  at_index (fields_of line) hw_addr_idx.

(** Field index 2, the IP address. *)
Definition ip_field (line : string) : string :=
  at_index (fields_of line) ipv4_idx.

(** A line with at least three fields. *)
Definition is_record (line : string) : bool :=
  (2 <? length (fields_of line))%nat.

(** A record of hardware address [addr]. *)
Definition lease_of (addr : string) (line : string) : bool :=
  is_record line && String.eqb (hw_field line) addr.


(** The lines the object reads from its lease file in a world. *)
Definition lease_lines (s : DNSMasqServer) (w : World) : list string :=
  match files w !! leases_path s with
  | Some (Readable content) => getlines content
  | Some Unreadable | None => []
  end.

End LeaseFile.

(** ** The constructor of [IPAddress] *)

(** Leaving a member function with a given outcome. *)
Definition leave {A} (o : Outcome A) : Op A := λ sw, (o, sw).

Section Checked.
Context `{Platform}.

(** [mp::optional<mp::IPAddress>{fields[ipv4_idx]}] runs the constructor of
    [IPAddress] on a field of the file as it is.  The constructor is
    declared outside this translation unit and may throw: [rejects text] is
    the message of the exception it throws for [text], and [None] when it
    returns.  [get_ip_for] catches nothing, so the exception leaves it. *)
Variable rejects : string → option string.

(** The body of [while (getline(leases_file, line))] in [get_ip_for], with
    the exception of the constructor. *)
Fixpoint scan_leases_checked (hw_addr : string) (lines : list string)
  : Outcome (option IPAddress) :=
  match lines with
  | [] => Returns None
  | line :: rest =>
      let fields := split line delimiter in
      if (2 <? length fields)%nat && String.eqb (at_index fields hw_addr_idx) hw_addr
      then match rejects (at_index fields ipv4_idx) with
           | Some what => Throws what
           | None => Returns (Some (IPAddress_from_string (at_index fields ipv4_idx)))
           end
      else scan_leases_checked hw_addr rest
  end.

(** [DNSMasqServer::get_ip_for], with the exception of the constructor.
    [get_ip_for] above is this function for a constructor that returns. *)
Definition get_ip_for_checked (hw_addr : string) : Op (option IPAddress) :=
  s ← this;
  let path := leases_path s in
  lines ← ifstream_lines path;
  leave (scan_leases_checked hw_addr lines).

End Checked.

(** ** Describing runs *)

(** The world after further outward calls. *)
Definition emit_all (evs : list Event) (w : World) : World :=
  {| env := env w; files := files w; trace := trace w ++ evs;
     next_pid := next_pid w |}.

(** The outward calls made between two worlds. *)
Definition new_events (before after : World) : list Event :=
  drop (length (trace before)) (trace after).

Definition is_helper_start (e : Event) : bool :=
  match e with EvHelperStart _ _ => true | _ => false end.

Definition is_kill (e : Event) : bool :=
  match e with EvKill _ => true | _ => false end.

Definition is_start (e : Event) : bool :=
  match e with EvStart _ => true | _ => false end.

Definition is_warning (e : Event) : bool :=
  match e with EvLog warning _ _ => true | _ => false end.

(** How often a kind of call occurs. *)
Definition count (kind : Event → bool) (evs : list Event) : nat :=
  length (List.filter kind evs).

(** The process that [start_dnsmasq] makes for an object in a world. *)
Definition new_process (s : DNSMasqServer) (w : World) : Process :=
  {| pid := next_pid w;
     process_spec :=
       {| spec_data_dir := data_dir s; spec_bridge_name := bridge_name s;
          spec_subnet := subnet s;
          spec_conf_file_path := fileName (conf_file s) |} |}.

(** ** A test platform *)

(** Modelled from the spec: [utils::split] is not part of this translation
    unit; "each line is split on single-space delimiters".  [split_on d s]
    cuts [s] at every occurrence of the character [d]. *)
Fixpoint split_on (d : ascii) (s : string) : list string :=
  match s with
  | EmptyString => [EmptyString]
  | String c rest =>
      if Ascii.eqb c d then EmptyString :: split_on d rest
      else match split_on d rest with
           | [] => [String c EmptyString]
           | f :: fs => String c f :: fs
           end
  end.

(** Modelled from the spec: [utils::split] for a delimiter of one
    character, which is how [get_ip_for] calls it. *)
Definition split_fields (line delimiter : string) : list string :=
  match delimiter with
  | String d EmptyString => split_on d line
  | _ => [line]
  end.

(** Modelled from the spec: [IPAddress] is not part of this translation
    unit; the spec speaks of the "IP address string", which is what this
    platform takes an address to be. *)
Definition test_platform : Platform :=
  {| split := split_fields;
     IPAddress := string;
     IPAddress_from_string := λ ip, ip;
     as_string := λ ip, ip;
     filePath := λ dir name, dir +:+ "/" +:+ name;
     absoluteFilePath := λ dir name, dir +:+ "/" +:+ name |}.

(** A daemon that always starts and exits when asked to, a helper that
    exits with 0. *)
Definition obliging_env : Env :=
  {| temp_names := λ _,
       ["/tmp/net1/dnsmasq-Hk3fQa.conf"; "/tmp/net1/dnsmasq-pT8zLw.conf"];
     started_in_time := λ _, true;
     failure_detail := λ _, "";
     is_running := λ _, true;
     finished_within := λ _ _, true;
     helper_signals := λ _ _, [finished 0 NormalExit] |}.

(** A daemon that does not start, is not running and ignores both
    termination and kill; a helper that crashes. *)
Definition stubborn_env : Env :=
  {| temp_names := λ _, ["/tmp/net1/dnsmasq-Hk3fQa.conf"];
     started_in_time := λ _, false;
     failure_detail := λ _, "dnsmasq: failed to create listening socket";
     is_running := λ _, false;
     finished_within := λ _ _, false;
     helper_signals := λ _ _, [errorOccurred Crashed; finished 11 CrashExit] |}.

Definition sample_leases : string :=
  "1700000000 52:54:00:12:34:56 10.10.0.5 hostA * * *" +:+ String newline
  "1700000100 52:54:00:ab:cd:ef 10.10.0.6 hostB * * *" +:+ String newline "".


Definition world_with (e : Env) (leases : option File) : World :=
  {| env := e;
     files := match leases with
              | Some f => {[ "/tmp/net1/dnsmasq.leases" := f ]}
              | None => ∅
              end;
     trace := [];
     next_pid := 0 |}.

Definition sample_server : DNSMasqServer :=
  {| data_dir := "/tmp/net1"; bridge_name := "mpbr0"; subnet := "10.10.0";
     conf_file := {| templateName := "/tmp/net1/dnsmasq-XXXXXX.conf";
                     fileName := "/tmp/net1/dnsmasq-Hk3fQa.conf" |};
     dnsmasq_cmd :=
       Some {| pid := 0;
               process_spec :=
                 {| spec_data_dir := "/tmp/net1"; spec_bridge_name := "mpbr0";
                    spec_subnet := "10.10.0";
                    spec_conf_file_path := "/tmp/net1/dnsmasq-Hk3fQa.conf" |} |};
     finish_connection := FinishedOf 0 |}.

(** The world of [sample_leases] with the obliging daemon. *)
Definition sample_world : World :=
  world_with obliging_env (Some (Readable sample_leases)).


(** The same lease file with the stubborn daemon and the crashing helper. *)
Definition stubborn_world : World :=
  world_with stubborn_env (Some (Readable sample_leases)).

(** No lease file yet. *)
Definition bare_world : World := world_with obliging_env None.

(** A second object in the data directory of [sample_server]. *)
Definition second_server : DNSMasqServer :=
  {| data_dir := "/tmp/net1"; bridge_name := "mpbr1"; subnet := "10.10.1";
     conf_file := {| templateName := "/tmp/net1/dnsmasq-XXXXXX.conf";
                     fileName := "/tmp/net1/dnsmasq-pT8zLw.conf" |};
     dnsmasq_cmd :=
       Some {| pid := 1;
               process_spec :=
                 {| spec_data_dir := "/tmp/net1"; spec_bridge_name := "mpbr1";
                    spec_subnet := "10.10.1";
                    spec_conf_file_path := "/tmp/net1/dnsmasq-pT8zLw.conf" |} |};
     finish_connection := FinishedOf 1 |}.

(** ** The life of an object *)

(** The spec of the daemon process that the members of an object
    describe: the arguments [start_dnsmasq] passes on. *)
Definition spec_of (s : DNSMasqServer) : DNSMasqProcessSpec :=
  {| spec_data_dir := data_dir s; spec_bridge_name := bridge_name s;
     spec_subnet := subnet s;
     spec_conf_file_path := fileName (conf_file s) |}.

(** What reaches a constructed object before its destruction: a call of
    a public member function, or the [finished] signal of the daemon. *)
Inductive Call :=
| call_get_ip_for (hw_addr : string)
| call_release_mac (hw_addr : string)
| call_check_dnsmasq_running
| signal_finished (process_state : ProcessState).

Section Calls.
Context `{Platform}.

Definition perform (c : Call) : Op unit :=
  match c with
  | call_get_ip_for hw_addr => get_ip_for hw_addr;; mret tt
  | call_release_mac hw_addr => release_mac hw_addr
  | call_check_dnsmasq_running => check_dnsmasq_running
  | signal_finished process_state => on_dnsmasq_finished process_state
  end.

(** One step in the life of an object: a call, whether it returns or
    throws, or any change of the world outside (the daemon rewrites the
    lease file, processes come and go). *)
Inductive step : relation (DNSMasqServer * World) :=
| step_call (c : Call) (sw : DNSMasqServer * World) :
    step sw (perform c sw).2
| step_outside (s : DNSMasqServer) (w w' : World) :
    step (s, w) (s, w').

End Calls.

(** What a run keeps of an object and a world: the environment, the
    files and the four configuration members; and the process held is the
    one held before or one made from the configuration. *)
Definition keeps (sw sw' : DNSMasqServer * World) : Prop :=
  env sw'.2 = env sw.2
  ∧ files sw'.2 = files sw.2
  ∧ data_dir sw'.1 = data_dir sw.1
  ∧ bridge_name sw'.1 = bridge_name sw.1
  ∧ subnet sw'.1 = subnet sw.1
  ∧ conf_file sw'.1 = conf_file sw.1
  ∧ (dnsmasq_cmd sw'.1 = dnsmasq_cmd sw.1
     ∨ ∃ p, dnsmasq_cmd sw'.1 = Some p ∧ process_spec p = spec_of sw.1).

(** ** Writing lines *)



(** A signal of the helper that [release_mac] passes over in silence:
    [finished] with exit code 0 and a normal exit. *)
Definition clean_exit (sg : QProcessSignal) : bool :=
  match sg with
  | errorOccurred _ => false
  | finished exit_code exit_status =>
      (exit_code =? 0) && bool_decide (exit_status = NormalExit)
  end.

(** A world in which every name drawn for the config file is taken. *)
Definition crowded_world : World :=
  {| env := obliging_env;
     files := {[ "/tmp/net1/dnsmasq-Hk3fQa.conf" := Readable "";
                 "/tmp/net1/dnsmasq-pT8zLw.conf" := Unreadable ]};
     trace := [];
     next_pid := 0 |}.

(** The lease file of [sample_leases] after the daemon has added a
    record for the first address again. *)
Definition grown_world : World :=
  world_with obliging_env
    (Some (Readable
             (sample_leases +:+
              "1700000900 52:54:00:12:34:56 10.10.0.77 hostA * * *")))%string.

(** The records of [sample_leases] with other expiry times and names. *)
Definition renamed_leases : string :=
  "9 52:54:00:12:34:56 10.10.0.5 other" +:+ String newline
  "0 52:54:00:ab:cd:ef 10.10.0.6" +:+ String newline "".

(** A daemon that is gone, and a new one that starts. *)
Definition recovering_world : World :=
  {| env :=
       {| temp_names := λ _, [];
          started_in_time := λ _, true;
          failure_detail := λ _, "";
          is_running := λ p, bool_decide (p ≠ 0%nat);
          finished_within := λ _ _, true;
          helper_signals := λ _ _, [finished 0 CrashExit] |};
     files := ∅;
     trace := [];
     next_pid := 1 |}.

(** *** A constructor that checks *)

Definition is_digit (c : ascii) : bool :=
  (48 <=? nat_of_ascii c)%nat && (nat_of_ascii c <=? 57)%nat.

(** The value of a string of decimal digits, after [acc]. *)
Fixpoint decimal (acc : nat) (digits : string) : option nat :=
  match digits with
  | EmptyString => Some acc
  | String c rest =>
      if is_digit c then decimal (10 * acc + (nat_of_ascii c - 48))%nat rest
      else None
  end.

(** One to three decimal digits with a value up to 255. *)
Definition is_octet (text : string) : bool :=
  (1 <=? String.length text)%nat && (String.length text <=? 3)%nat
  && match decimal 0%nat text with
     | Some n => (n <=? 255)%nat
     | None => false
     end.

(** Modelled from the spec: [IPAddress] is declared outside this
    translation unit.  The lease record holds an "IP address" (the comment
    in [get_ip_for] says [<ipv4>]), so this constructor returns for four
    octets separated by dots and throws for every other text. *)
Definition dotted_quad_rejects (text : string) : option string :=
  match split_on "." text with
  | [a; b; c; d] =>
      if is_octet a && is_octet b && is_octet c && is_octet d then None
      else Some "invalid IP octet"
  | _ => Some "invalid IP octet"
  end.

(** A lease file whose last record was cut inside the IP address. *)
Definition torn_leases : string :=
  "1700000100 52:54:00:ab:cd:ef 10.10.0.6 hostB * * *" +:+ String newline
  "1700000000 52:54:00:12:34:56 10.10".

Definition torn_world : World :=
  world_with obliging_env (Some (Readable torn_leases)).

(** * Properties *)

(** ** Reading lines *)

(** [getlines] is what the [getline] loop sees: no line when the stream
    fails, otherwise the line read and the lines of the rest. *)
Lemma getlines_getline (s : string) :
  getlines s = match getline s with
               | None => []
               | Some (l, r) => l :: getlines r
               end.
Proof.
  induction s as [|c rest IH]; [reflexivity|].
  cbn [getline getlines read_line].
  destruct (Ascii.eqb c newline); [reflexivity|].
  rewrite IH. destruct rest as [|c' rest']; [reflexivity|].
  cbn [getline]. destruct (read_line (String c' rest')); reflexivity.
Qed.

Section GetIpFor.
Context `{Platform}.

(** [get_ip_for] returns the result of the scan and leaves the object and
    the world as they were. *)
Lemma get_ip_for_run (addr : string) (s : DNSMasqServer) (w : World) :
  get_ip_for addr (s, w) = (Returns (scan_leases addr (lease_lines s w)), (s, w)).
Proof.
  unfold get_ip_for, lease_lines, ifstream_lines, mbind, Op_bind, this,
    the_world, mret, Op_ret; cbn.
  destruct (files w !! leases_path s) as [[content|]|]; reflexivity.
Qed.

Lemma scan_leases_cons (addr line : string) (rest : list string) :
  scan_leases addr (line :: rest) =
    if lease_of addr line then Some (IPAddress_from_string (ip_field line))
    else scan_leases addr rest.
Proof. reflexivity. Qed.


(** Without a record of the address the scan finds nothing. *)
Lemma scan_leases_none (addr : string) (lines : list string) :
  (∀ l, l ∈ lines → lease_of addr l = false) →
  scan_leases addr lines = None.
Proof.
  intros Hall. induction lines as [|l lines IH]; [reflexivity|].
  rewrite scan_leases_cons, (Hall l) by apply list_elem_of_here.
  apply IH. intros l' Hl'. apply Hall. by apply list_elem_of_further.
Qed.

(** Lines that are no records do not change the scan. *)
Lemma scan_leases_records (addr : string) (lines : list string) :
  scan_leases addr lines = scan_leases addr (List.filter is_record lines).
Proof.
  induction lines as [|l lines IH]; [reflexivity|].
  cbn [List.filter]. rewrite scan_leases_cons. unfold lease_of.
  destruct (is_record l) eqn:Hrec; cbn [andb].
  - rewrite scan_leases_cons. unfold lease_of. rewrite Hrec, IH. reflexivity.
  - exact IH.
Qed.

Lemma lease_of_true (addr line : string) :
  lease_of addr line = true ↔
  (3 ≤ length (fields_of line))%nat ∧ hw_field line = addr.
Proof.
  unfold lease_of, is_record.
  rewrite andb_true_iff, Nat.ltb_lt, String.eqb_eq.
  split; intros [Hlen Hhw]; (split; [lia|exact Hhw]).
Qed.





(** [get_ip_for_checked] leaves with the outcome of the scan, the object
    and the world as they were. *)
Lemma get_ip_for_checked_run (rejects : string → option string)
    (addr : string) (s : DNSMasqServer) (w : World) :
  get_ip_for_checked rejects addr (s, w) =
    (scan_leases_checked rejects addr (lease_lines s w), (s, w)).
Proof.
  unfold get_ip_for_checked, lease_lines, ifstream_lines, leave, mbind,
    Op_bind, this, the_world, mret, Op_ret; cbn.
  destruct (files w !! leases_path s) as [[content|]|]; reflexivity.
Qed.

Lemma scan_leases_checked_cons (rejects : string → option string)
    (addr line : string) (rest : list string) :
  scan_leases_checked rejects addr (line :: rest) =
    if lease_of addr line
    then match rejects (ip_field line) with
         | Some what => Throws what
         | None => Returns (Some (IPAddress_from_string (ip_field line)))
         end
    else scan_leases_checked rejects addr rest.
Proof. reflexivity. Qed.

(** Lines with fewer than three fields do not change the scan, whatever
    the constructor does. *)
Lemma scan_leases_checked_records (rejects : string → option string)
    (addr : string) (lines : list string) :
  scan_leases_checked rejects addr lines =
    scan_leases_checked rejects addr (List.filter is_record lines).
Proof.
  induction lines as [|l lines IH]; [reflexivity|].
  cbn [List.filter]. rewrite scan_leases_checked_cons. unfold lease_of.
  destruct (is_record l) eqn:Hrec; cbn [andb].
  - rewrite scan_leases_checked_cons. unfold lease_of.
    rewrite Hrec, IH. reflexivity.
  - exact IH.
Qed.

(** The scan throws exactly the exception of the constructor on field 2
    of the first line that has three fields and the address. *)
Lemma scan_leases_checked_throws (rejects : string → option string)
    (addr : string) (lines : list string) (what : string) :
  scan_leases_checked rejects addr lines = Throws what ↔
  ∃ pre line post,
    lines = (pre ++ line :: post)%list
    ∧ (∀ l, l ∈ pre → lease_of addr l = false)
    ∧ lease_of addr line = true
    ∧ rejects (ip_field line) = Some what.
Proof.
  split.
  - induction lines as [|l lines IH]; [discriminate|].
    rewrite scan_leases_checked_cons.
    destruct (lease_of addr l) eqn:Hl.
    + destruct (rejects (ip_field l)) as [what'|] eqn:Hrej; [|discriminate].
      intros [= ->]. exists [], l, lines. repeat split; [|done..].
      intros l' Hl'. by apply elem_of_nil in Hl'.
    + intros (pre & line & post & -> & Hpre & Hline & Hrej)%IH.
      exists (l :: pre), line, post. repeat split; [|done..].
      intros l' [->|Hl']%elem_of_cons; [done|by apply Hpre].
  - intros (pre & line & post & -> & Hpre & Hline & Hrej).
    induction pre as [|l pre IH]; cbn [app];
      rewrite scan_leases_checked_cons.
    + by rewrite Hline, Hrej.
    + rewrite (Hpre l) by apply list_elem_of_here.
      apply IH. intros l' Hl'. by apply Hpre, list_elem_of_further.
Qed.

(** When the constructor returns for field 2 of every line that has three
    fields and the address, the scan is the one of [get_ip_for]. *)
Lemma scan_leases_checked_accepted (rejects : string → option string)
    (addr : string) (lines : list string) :
  (∀ l, l ∈ lines → lease_of addr l = true → rejects (ip_field l) = None) →
  scan_leases_checked rejects addr lines = Returns (scan_leases addr lines).
Proof.
  intros Hacc. induction lines as [|l lines IH]; [reflexivity|].
  rewrite scan_leases_checked_cons, scan_leases_cons.
  destruct (lease_of addr l) eqn:Hl.
  - by rewrite (Hacc l (list_elem_of_here _ _) Hl).
  - apply IH. intros l' Hl'. by apply Hacc, list_elem_of_further.
Qed.

(** C3, as the code has it: [get_ip_for] does not raise on a missing or
    unreadable lease file, for which it returns none, nor on lines with
    fewer than three fields, which it skips even when they hold the
    address: its outcome is that of the scan over the lines with three
    fields or more alone.  It raises in one case only: the constructor of
    [IPAddress] throws for field 2 of the first line that has at least
    three fields and the address as field 1; that exception leaves
    [get_ip_for].  When the constructor returns for these fields,
    [get_ip_for] returns. *)
Theorem get_ip_for_checked_tolerant (rejects : string → option string)
    (s : DNSMasqServer) (w : World) (addr : string) :
  ((∀ content, files w !! leases_path s ≠ Some (Readable content)) →
     get_ip_for_checked rejects addr (s, w) = (Returns None, (s, w)))
  ∧ (get_ip_for_checked rejects addr (s, w)).1 =
      scan_leases_checked rejects addr (List.filter is_record (lease_lines s w))
  ∧ (∀ pre short post,
       (length (fields_of short) < 3)%nat →
       scan_leases_checked rejects addr (pre ++ short :: post) =
         scan_leases_checked rejects addr (pre ++ post))
  ∧ (∀ what,
       (get_ip_for_checked rejects addr (s, w)).1 = Throws what ↔
       ∃ pre line post,
         lease_lines s w = (pre ++ line :: post)%list
         ∧ (∀ l, l ∈ pre → (3 ≤ length (fields_of l))%nat → hw_field l ≠ addr)
         ∧ (3 ≤ length (fields_of line))%nat
         ∧ hw_field line = addr
         ∧ rejects (ip_field line) = Some what)
  ∧ ((∀ l, l ∈ lease_lines s w → (3 ≤ length (fields_of l))%nat →
        hw_field l = addr → rejects (ip_field l) = None) →
     get_ip_for_checked rejects addr (s, w) = get_ip_for addr (s, w)).
Proof.
  rewrite get_ip_for_checked_run, get_ip_for_run. cbn [fst]. repeat split.
  - intros Hnofile. unfold lease_lines.
    destruct (files w !! leases_path s) as [[content|]|] eqn:Hfile;
      [by destruct (Hnofile content)|reflexivity..].
  - apply scan_leases_checked_records.
  - intros pre short post Hshort.
    rewrite (scan_leases_checked_records _ _ (pre ++ short :: post)).
    rewrite (scan_leases_checked_records _ _ (pre ++ post)).
    rewrite !List.filter_app. cbn [List.filter].
    replace (is_record short) with false; [reflexivity|].
    symmetry. unfold is_record. apply Nat.ltb_ge. lia.
  - intros (pre & line & post & Hlines & Hpre & Hline & Hrej)
      %scan_leases_checked_throws.
    apply lease_of_true in Hline as [Hlen Hhw].
    exists pre, line, post. repeat split; [done| |done..].
    intros l Hl Hlen' Hhw'.
    assert (lease_of addr l = true) as Htrue by by apply lease_of_true.
    by rewrite (Hpre l Hl) in Htrue.
  - intros (pre & line & post & Hlines & Hpre & Hlen & Hhw & Hrej).
    apply scan_leases_checked_throws.
    exists pre, line, post. repeat split; [done| |by apply lease_of_true|done].
    intros l Hl. apply not_true_is_false.
    intros [Hlen' Hhw']%lease_of_true. by apply (Hpre l).
  - intros Hacc. f_equal. apply scan_leases_checked_accepted.
    intros l Hl [Hlen Hhw]%lease_of_true. by apply Hacc.
Qed.

(** C10: [get_ip_for] leaves the object as it was (data directory, bridge
    name, subnet, config file and process handle), and the world too: it
    makes no outward call and changes no file. *)
Theorem get_ip_for_read_only (s : DNSMasqServer) (w : World) (addr : string) :
  (get_ip_for addr (s, w)).2 = (s, w).
Proof. by rewrite get_ip_for_run. Qed.

End GetIpFor.

(** ** Runs and traces *)

Lemma emit_as_emit_all (e : Event) (w : World) : emit e w = emit_all [e] w.
Proof. reflexivity. Qed.

Lemma emit_all_nil (w : World) : emit_all [] w = w.
Proof. destruct w. unfold emit_all; cbn. by rewrite app_nil_r. Qed.

Lemma emit_all_emit_all (evs evs' : list Event) (w : World) :
  emit_all evs' (emit_all evs w) = emit_all (evs ++ evs') w.
Proof. unfold emit_all; cbn. by rewrite app_assoc. Qed.

Lemma new_events_grown (w w' : World) (evs : list Event) :
  trace w' = (trace w ++ evs)%list → new_events w w' = evs.
Proof. intros Htrace. unfold new_events. by rewrite Htrace, drop_app_length. Qed.

Lemma new_events_emit_all (w : World) (evs : list Event) :
  new_events w (emit_all evs w) = evs.
Proof. by apply new_events_grown. Qed.

(** Sequencing after an operation that returns. *)
Lemma bind_returns {A B} (m : Op A) (k : A → Op B) sw a sw' :
  m sw = (Returns a, sw') → (m ≫= k) sw = k a sw'.
Proof. unfold mbind, Op_bind. by intros ->. Qed.

(** An exception passes through what follows. *)
Lemma bind_throws {A B} (m : Op A) (k : A → Op B) sw what sw' :
  m sw = (Throws what, sw') → (m ≫= k) sw = (Throws what, sw').
Proof. unfold mbind, Op_bind. by intros ->. Qed.

Ltac run_op :=
  unfold mbind, Op_bind, mret, Op_ret, this, the_world, assign, outward, log,
    change_world, throw, deref_dnsmasq_cmd; cbn.

Section Lifecycle.
Context `{Platform}.

(** [start_dnsmasq] when the daemon reports started. *)
Lemma start_dnsmasq_started (s : DNSMasqServer) (w : World) :
  started_in_time (env w) (next_pid w) = true →
  start_dnsmasq (s, w) =
    (Returns tt,
     (set_finish_connection (FinishedOf (next_pid w))
        (set_dnsmasq_cmd (new_process s w) s),
      emit_all [EvLog debug "dnsmasq" "Starting dnsmasq";
                EvCreateProcess (new_process s w);
                EvStart (next_pid w);
                EvWaitForStarted (next_pid w) true;
                EvConnectFinished (next_pid w)] (bump_pid w))).
Proof.
  intros Hstarted.
  unfold start_dnsmasq, make_dnsmasq_process, Process_start,
    Process_wait_for_started, connect_finished. run_op.
  rewrite Hstarted. cbn. unfold emit_all, emit; cbn.
  by rewrite <- !app_assoc.
Qed.

(** [start_dnsmasq] when the daemon does not report started. *)
Lemma start_dnsmasq_failed (s : DNSMasqServer) (w : World) :
  started_in_time (env w) (next_pid w) = false →
  start_dnsmasq (s, w) =
    (Throws (if isEmpty (failure_detail (env w) (next_pid w))
             then "Multipass dnsmasq failed to start"
             else "Multipass dnsmasq failed to start" +:+ ": "
                    +:+ failure_detail (env w) (next_pid w)),
     (set_dnsmasq_cmd (new_process s w) s,
      emit_all [EvLog debug "dnsmasq" "Starting dnsmasq";
                EvCreateProcess (new_process s w);
                EvStart (next_pid w);
                EvWaitForStarted (next_pid w) false;
                EvKill (next_pid w)] (bump_pid w))).
Proof.
  intros Hstarted.
  unfold start_dnsmasq, make_dnsmasq_process, Process_start,
    Process_wait_for_started, Process_failure_message, Process_kill. run_op.
  rewrite Hstarted. cbn. unfold emit_all, emit; cbn.
  rewrite <- !app_assoc.
  by destruct (isEmpty (failure_detail (env w) (next_pid w))).
Qed.

(** [check_dnsmasq_running] by the answer of [running]. *)
Lemma check_dnsmasq_running_run (s : DNSMasqServer) (w : World) (p : Process) :
  dnsmasq_cmd s = Some p →
  check_dnsmasq_running (s, w) =
    if is_running (env w) (pid p) then (Returns tt, (s, w))
    else start_dnsmasq (s, emit (EvLog warning "dnsmasq" "Not running") w).
Proof.
  intros Hcmd. unfold check_dnsmasq_running, Process_running. run_op.
  rewrite Hcmd. cbn. by destruct (is_running (env w) (pid p)).
Qed.

(** C6: when the daemon process is running, [check_dnsmasq_running] does
    nothing at all, so [start_dnsmasq] is not called; when it is not
    running, it logs the warning and then runs [start_dnsmasq] once: exactly
    one process is started. *)
Theorem check_dnsmasq_running_restarts (s : DNSMasqServer) (w : World)
    (p : Process) :
  dnsmasq_cmd s = Some p →
  (is_running (env w) (pid p) = true →
     check_dnsmasq_running (s, w) = (Returns tt, (s, w)))
  ∧ (is_running (env w) (pid p) = false →
     check_dnsmasq_running (s, w) =
       start_dnsmasq (s, emit (EvLog warning "dnsmasq" "Not running") w)
     ∧ head (new_events w (check_dnsmasq_running (s, w)).2.2) =
         Some (EvLog warning "dnsmasq" "Not running")
     ∧ count is_start (new_events w (check_dnsmasq_running (s, w)).2.2) = 1%nat).
Proof.
  intros Hcmd.
  split; intros Hb; rewrite (check_dnsmasq_running_run _ _ _ Hcmd), Hb;
    [reflexivity|].
  split; [reflexivity|].
  set (w1 := emit (EvLog warning "dnsmasq" "Not running") w).
  destruct (started_in_time (env w1) (next_pid w1)) eqn:Hstarted.
  - rewrite (start_dnsmasq_started _ _ Hstarted). cbn [fst snd].
    erewrite new_events_grown; [|cbn; symmetry; apply app_assoc]. done.
  - rewrite (start_dnsmasq_failed _ _ Hstarted). cbn [fst snd].
    erewrite new_events_grown; [|cbn; symmetry; apply app_assoc]. done.
Qed.

(** [conf_file.open()] when a name of the template is free. *)
Lemma conf_file_open_found (s : DNSMasqServer) (w : World) (name : string) :
  List.find (λ name, negb (file_exists name w))
    (temp_names (env w) (templateName (conf_file s))) = Some name →
  conf_file_open (s, w) =
    (Returns true,
     (set_conf_file {| templateName := templateName (conf_file s);
                       fileName := name |} s,
      create_file name w)).
Proof. intros Hfind. unfold conf_file_open. run_op. by rewrite Hfind. Qed.

(** [conf_file.open()] when no name of the template is free. *)
Lemma conf_file_open_none (s : DNSMasqServer) (w : World) :
  List.find (λ name, negb (file_exists name w))
    (temp_names (env w) (templateName (conf_file s))) = None →
  conf_file_open (s, w) = (Returns false, (s, w)).
Proof. intros Hfind. unfold conf_file_open. run_op. by rewrite Hfind. Qed.

(** Opening the config file touches neither the environment nor the
    trace nor the process identities, and keeps all members but
    [conf_file]. *)
Lemma conf_file_open_frame (s : DNSMasqServer) (w : World) :
  ∃ opened s' w',
    conf_file_open (s, w) = (Returns opened, (s', w'))
    ∧ env w' = env w ∧ next_pid w' = next_pid w ∧ trace w' = trace w
    ∧ data_dir s' = data_dir s.
Proof.
  destruct (List.find (λ name, negb (file_exists name w))
              (temp_names (env w) (templateName (conf_file s))))
    as [name|] eqn:Hfind.
  - rewrite (conf_file_open_found _ _ _ Hfind). by eexists _, _, _.
  - rewrite (conf_file_open_none _ _ Hfind). by eexists _, _, _.
Qed.

(** The constructor runs [start_dnsmasq] on the object with its config
    file opened. *)
Lemma constructor_body_run (s : DNSMasqServer) (w : World) opened s' w' :
  conf_file_open (s, w) = (Returns opened, (s', w')) →
  constructor_body (s, w) = start_dnsmasq (s', w').
Proof.
  intros Hopen. unfold constructor_body.
  rewrite (bind_returns _ _ _ _ _ Hopen). reflexivity.
Qed.

(** C7: when the daemon does not report started, [start_dnsmasq] kills the
    process it has just started and throws; the message is the base
    message, followed by ": " and the failure detail when there is one.
    The exception reaches the caller of the constructor and of
    [check_dnsmasq_running] alike, with the kill as the last outward
    call. *)
Theorem start_failure_is_fatal (s : DNSMasqServer) (w : World) :
  started_in_time (env w) (next_pid w) = false →
  let p := next_pid w in
  let detail := failure_detail (env w) p in
  let what :=
    if isEmpty detail then "Multipass dnsmasq failed to start"
    else "Multipass dnsmasq failed to start" +:+ ": " +:+ detail in
  ((start_dnsmasq (s, w)).1 = Throws what
   ∧ new_events w (start_dnsmasq (s, w)).2.2 =
       [EvLog debug "dnsmasq" "Starting dnsmasq";
        EvCreateProcess (new_process s w);
        EvStart p; EvWaitForStarted p false; EvKill p])
  ∧ (∀ old, dnsmasq_cmd s = Some old → is_running (env w) (pid old) = false →
       (check_dnsmasq_running (s, w)).1 = Throws what
       ∧ last (new_events w (check_dnsmasq_running (s, w)).2.2) = Some (EvKill p))
  ∧ (∀ data_dir bridge_name subnet,
       (DNSMasqServer_new data_dir bridge_name subnet w).1 = Throws what
       ∧ last (new_events w (DNSMasqServer_new data_dir bridge_name subnet w).2)
           = Some (EvKill p)).
Proof.
  intros Hstarted p detail what. repeat split.
  - by rewrite (start_dnsmasq_failed _ _ Hstarted).
  - rewrite (start_dnsmasq_failed _ _ Hstarted). cbn [fst snd].
    by apply new_events_grown.
  - rewrite (check_dnsmasq_running_run s w old) by done.
    replace (is_running (env w) (pid old)) with false.
    by rewrite start_dnsmasq_failed.
  - rewrite (check_dnsmasq_running_run s w old) by done.
    replace (is_running (env w) (pid old)) with false.
    rewrite start_dnsmasq_failed by done. cbn [fst snd].
    erewrite new_events_grown; [|cbn; symmetry; apply app_assoc]. done.
  - unfold DNSMasqServer_new.
    destruct (conf_file_open_frame (initial data_dir0 bridge_name0 subnet0) w)
      as (opened & s' & w' & Hopen & Henv & Hpid & Htrace & _).
    rewrite (constructor_body_run _ _ _ _ _ Hopen).
    rewrite start_dnsmasq_failed by (by rewrite Henv, Hpid).
    cbn [fst]. by rewrite Henv, Hpid.
  - unfold DNSMasqServer_new.
    destruct (conf_file_open_frame (initial data_dir0 bridge_name0 subnet0) w)
      as (opened & s' & w' & Hopen & Henv & Hpid & Htrace & _).
    rewrite (constructor_body_run _ _ _ _ _ Hopen).
    rewrite start_dnsmasq_failed by (by rewrite Henv, Hpid).
    cbn [fst snd]. erewrite new_events_grown; [|cbn; by rewrite Htrace].
    cbn. by rewrite Hpid.
Qed.

(** C8: the destructor first disconnects the exit notification, then asks
    the daemon to terminate and waits 1000 ms.  When the daemon has
    finished by then, nothing is killed.  Otherwise it kills once and waits
    100 ms, and when the daemon still has not finished it only logs a
    warning.  The destructor returns in each case. *)
Theorem destruction_sequence (s : DNSMasqServer) (w : World) (p : Process) :
  dnsmasq_cmd s = Some p →
  let id := pid p in
  let asked :=
    [EvDisconnect (finish_connection s);
     EvLog debug "dnsmasq" "terminating";
     EvTerminate id] in
  let killed :=
    [EvWaitForFinished id 1000 false;
     EvLog info "dnsmasq" "failed to terminate nicely, killing";
     EvKill id] in
  (finished_within (env w) id 1000 = true →
     DNSMasqServer_delete (s, w) =
       (Returns tt, (s, emit_all (asked ++ [EvWaitForFinished id 1000 true]) w))
     ∧ count is_kill (new_events w (DNSMasqServer_delete (s, w)).2.2) = 0%nat)
  ∧ (finished_within (env w) id 1000 = false →
     count is_kill (new_events w (DNSMasqServer_delete (s, w)).2.2) = 1%nat
     ∧ (finished_within (env w) id 100 = true →
        DNSMasqServer_delete (s, w) =
          (Returns tt,
           (s, emit_all (asked ++ killed ++ [EvWaitForFinished id 100 true]) w)))
     ∧ (finished_within (env w) id 100 = false →
        DNSMasqServer_delete (s, w) =
          (Returns tt,
           (s, emit_all (asked ++ killed ++
                           [EvWaitForFinished id 100 false;
                            EvLog warning "dnsmasq" "failed to kill"]) w)))).
Proof.
  intros Hcmd id asked killed. subst id.
  assert (∀ b1 b2,
            finished_within (env w) (pid p) 1000 = b1 →
            finished_within (env w) (pid p) 100 = b2 →
            DNSMasqServer_delete (s, w) =
              (Returns tt,
               (s, emit_all
                     (asked ++
                      if b1 then [EvWaitForFinished (pid p) 1000 true]
                      else killed ++
                           if b2 then [EvWaitForFinished (pid p) 100 true]
                           else [EvWaitForFinished (pid p) 100 false;
                                 EvLog warning "dnsmasq" "failed to kill"])
                     w))) as Hrun.
  { intros b1 b2 Hb1 Hb2.
    destruct s as [dir bridge net conf cmd conn]. cbn in Hcmd. subst cmd.
    unfold DNSMasqServer_delete, Process_terminate, Process_wait_for_finished,
      Process_kill. run_op. rewrite Hb1.
    destruct b1; cbn.
    - unfold emit_all, emit; cbn. rewrite <- !app_assoc. reflexivity.
    - rewrite Hb2.
      destruct b2; cbn; run_op; unfold emit_all, emit; cbn;
        rewrite <- !app_assoc; reflexivity. }
  split; intros Hb1.
  - rewrite (Hrun _ _ Hb1 eq_refl). split; [reflexivity|].
    cbn [fst snd]. by rewrite new_events_emit_all.
  - split; [|split; intros Hb2; by rewrite (Hrun _ _ Hb1 Hb2)].
    rewrite (Hrun _ _ Hb1 eq_refl). cbn [fst snd].
    rewrite new_events_emit_all.
    by destruct (finished_within (env w) (pid p) 100).
Qed.

(** An object that has been constructed holds a process, the one the
    member functions dereference. *)
Lemma DNSMasqServer_new_has_process (dir bridge net : string) (w : World)
    (s : DNSMasqServer) (w' : World) :
  DNSMasqServer_new dir bridge net w = (Returns s, w') →
  ∃ p, dnsmasq_cmd s = Some p.
Proof.
  unfold DNSMasqServer_new.
  destruct (conf_file_open_frame (initial dir bridge net) w)
    as (opened & s1 & w1 & Hopen & _).
  rewrite (constructor_body_run _ _ _ _ _ Hopen).
  destruct (started_in_time (env w1) (next_pid w1)) eqn:Hstarted.
  - rewrite (start_dnsmasq_started _ _ Hstarted).
    intros [= <- _]. by eexists.
  - by rewrite (start_dnsmasq_failed _ _ Hstarted).
Qed.

(** C9, as the code has it: the config file of an object is a temporary
    file of the template [dnsmasq-XXXXXX.conf] in the data directory.  When
    it has been created, its name is one the environment drew for the
    template and that no file had before, so it differs from the config
    file of every object whose config file existed then.  The lease file is
    [dnsmasq.leases] in the data directory, whatever the object. *)
Theorem conf_file_fresh_leases_fixed (dir bridge net : string) (w : World)
    (s : DNSMasqServer) (w' : World) :
  DNSMasqServer_new dir bridge net w = (Returns s, w') →
  (fileName (conf_file s) ≠ "" →
     fileName (conf_file s)
       ∈ temp_names (env w) (absoluteFilePath dir "dnsmasq-XXXXXX.conf")
     ∧ file_exists (fileName (conf_file s)) w = false
     ∧ file_exists (fileName (conf_file s)) w' = true
     ∧ ∀ other, file_exists (fileName (conf_file other)) w = true →
         fileName (conf_file other) ≠ fileName (conf_file s))
  ∧ leases_path s = filePath dir "dnsmasq.leases".
Proof.
  unfold DNSMasqServer_new. intros Hnew.
  set (s0 := initial dir bridge net) in *.
  destruct (List.find (λ name, negb (file_exists name w))
              (temp_names (env w) (templateName (conf_file s0))))
    as [name|] eqn:Hfind.
  - rewrite (constructor_body_run _ _ _ _ _ (conf_file_open_found _ _ _ Hfind))
      in Hnew.
    apply find_some in Hfind as [Hin Hfree].
    apply negb_true_iff in Hfree.
    destruct (started_in_time (env (create_file name w))
                (next_pid (create_file name w))) eqn:Hstarted.
    + rewrite (start_dnsmasq_started _ _ Hstarted) in Hnew.
      injection Hnew as <- <-. cbn. split; [|reflexivity].
      intros _. repeat split.
      * by apply list_elem_of_In.
      * exact Hfree.
      * unfold file_exists; cbn. by rewrite lookup_insert_eq.
      * intros other Hother Heq. congruence.
    + by rewrite (start_dnsmasq_failed _ _ Hstarted) in Hnew.
  - rewrite (constructor_body_run _ _ _ _ _ (conf_file_open_none _ _ Hfind))
      in Hnew.
    destruct (started_in_time (env w) (next_pid w)) eqn:Hstarted.
    + rewrite (start_dnsmasq_started _ _ Hstarted) in Hnew.
      injection Hnew as <- <-. cbn. split; [|reflexivity].
      intros Hname. by destruct Hname.
    + by rewrite (start_dnsmasq_failed _ _ Hstarted) in Hnew.
Qed.

End Lifecycle.

Section Release.
Context `{Platform}.

(** A slot of the helper returns, and logs at most one warning. *)
Lemma deliver_logs (ip : IPAddress) (hw_addr : string) (sg : QProcessSignal)
    (s : DNSMasqServer) (w : World) :
  ∃ logs,
    Forall (λ e, is_warning e = true) logs
    ∧ deliver ip hw_addr sg (s, w) = (Returns tt, (s, emit_all logs w)).
Proof.
  destruct sg as [e|exit_code exit_status]; cbn [deliver].
  - eexists [_]. split; [|reflexivity]. by repeat constructor.
  - unfold log_exit_status.
    destruct ((exit_code =? 0) && bool_decide (exit_status = NormalExit)).
    + exists []. split; [constructor|]. by rewrite emit_all_nil.
    + eexists [_]. split; [|reflexivity]. by repeat constructor.
Qed.

(** So do all the signals of a run together. *)
Lemma deliver_all_logs (ip : IPAddress) (hw_addr : string)
    (sgs : list QProcessSignal) (s : DNSMasqServer) (w : World) :
  ∃ logs,
    Forall (λ e, is_warning e = true) logs
    ∧ deliver_all ip hw_addr sgs (s, w) = (Returns tt, (s, emit_all logs w)).
Proof.
  revert w. induction sgs as [|sg sgs IH]; intros w.
  - exists []. split; [constructor|]. by rewrite emit_all_nil.
  - destruct (deliver_logs ip hw_addr sg s w) as (logs1 & Hwarn1 & Hrun1).
    destruct (IH (emit_all logs1 w)) as (logs2 & Hwarn2 & Hrun2).
    exists (logs1 ++ logs2)%list. split; [by apply Forall_app|].
    cbn [deliver_all]. rewrite (bind_returns _ _ _ _ _ Hrun1), Hrun2.
    by rewrite emit_all_emit_all.
Qed.

Lemma warnings_start_no_helper (logs : list Event) :
  Forall (λ e, is_warning e = true) logs →
  List.filter is_helper_start logs = [].
Proof.
  induction 1 as [|e logs He _ IH]; [reflexivity|].
  cbn [List.filter]. rewrite IH. by destruct e.
Qed.

(** C4: when [get_ip_for] returns none for a hardware address,
    [release_mac] logs one warning and returns; it starts no helper
    process. *)
Theorem release_mac_without_lease (s : DNSMasqServer) (w : World)
    (hw_addr : string) :
  (get_ip_for hw_addr (s, w)).1 = Returns None →
  release_mac hw_addr (s, w) =
    (Returns tt,
     (s, emit (EvLog warning "dnsmasq"
                 ("attempting to release non-existant addr: " +:+ hw_addr)) w))
  ∧ count is_helper_start (new_events w (release_mac hw_addr (s, w)).2.2) = 0%nat.
Proof.
  intros Hnone.
  assert (release_mac hw_addr (s, w) =
            (Returns tt,
             (s, emit (EvLog warning "dnsmasq"
                         ("attempting to release non-existant addr: "
                            +:+ hw_addr)) w))) as Hrun.
  { unfold release_mac. rewrite get_ip_for_run in Hnone. cbn [fst] in Hnone.
    injection Hnone as Hnone.
    rewrite (bind_returns _ _ _ _ _ (get_ip_for_run hw_addr s w)), Hnone.
    reflexivity. }
  split; [exact Hrun|].
  rewrite Hrun. cbn [snd]. rewrite emit_as_emit_all, new_events_emit_all.
  reflexivity.
Qed.

(** What the two slots write for the signals of a run: one warning for
    each error and for each finish that is not exit code 0 with a normal
    exit, and nothing else. *)
Lemma deliver_all_reported (ip : IPAddress) (hw_addr : string)
    (sgs : list QProcessSignal) (s : DNSMasqServer) (w : World) :
  ∃ logs,
    Forall (λ e, is_warning e = true) logs
    ∧ deliver_all ip hw_addr sgs (s, w) = (Returns tt, (s, emit_all logs w))
    ∧ (∀ e, errorOccurred e ∈ sgs →
         EvLog warning "dnsmasq"
           ("failed to release ip addr " +:+ as_string ip +:+ " with mac "
              +:+ hw_addr +:+ ": " +:+ qenum_to_string e) ∈ logs)
    ∧ (∀ exit_code exit_status,
         finished exit_code exit_status ∈ sgs →
         ¬ (exit_code = 0 ∧ exit_status = NormalExit) →
         EvLog warning "dnsmasq"
           ("failed to release ip addr " +:+ as_string ip +:+ " with mac "
              +:+ hw_addr +:+ ", exit_code: " +:+ pretty exit_code) ∈ logs)
    ∧ length logs = length (List.filter (λ sg, negb (clean_exit sg)) sgs).
Proof.
  revert w. induction sgs as [|sg sgs IH]; intros w.
  - exists []. split; [constructor|]. split; [by rewrite emit_all_nil|].
    repeat split; [intros e He|intros c st He]; by apply elem_of_nil in He.
  - destruct sg as [e|exit_code exit_status].
    + set (entry := EvLog warning "dnsmasq"
                      ("failed to release ip addr " +:+ as_string ip
                         +:+ " with mac " +:+ hw_addr +:+ ": "
                         +:+ qenum_to_string e)).
      destruct (IH (emit entry w))
        as (logs & Hwarn & Hrun & Herr & Hfin & Hlen).
      exists (entry :: logs). split; [by constructor|]. split.
      { cbn [deliver_all deliver].
        rewrite (bind_returns _ _ _ _ _
                   (eq_refl : on_error_occurred ip hw_addr e (s, w)
                              = (Returns tt, (s, emit entry w)))).
        rewrite Hrun, emit_as_emit_all, emit_all_emit_all. reflexivity. }
      split; [|split].
      * intros e' [[= ->]|He']%elem_of_cons;
          [apply list_elem_of_here|by apply list_elem_of_further, Herr].
      * intros c st [[=]|He']%elem_of_cons Hc.
        apply list_elem_of_further. by apply (Hfin c st).
      * cbn. by rewrite Hlen.
    + destruct ((exit_code =? 0) && bool_decide (exit_status = NormalExit))
        eqn:Hclean.
      * destruct (IH w) as (logs & Hwarn & Hrun & Herr & Hfin & Hlen).
        exists logs. split; [done|]. split.
        { cbn [deliver_all deliver].
          assert (log_exit_status ip hw_addr exit_code exit_status (s, w)
                  = (Returns tt, (s, w))) as Hslot
            by (unfold log_exit_status; by rewrite Hclean).
          rewrite (bind_returns _ _ _ _ _ Hslot). exact Hrun. }
        split; [|split].
        -- intros e' [[=]|He']%elem_of_cons. by apply Herr.
        -- intros c st [[= -> ->]|He']%elem_of_cons Hc; [|by apply (Hfin c st)].
           exfalso. apply Hc.
           apply andb_true_iff in Hclean as [Hzero Hnormal].
           split; [by apply Z.eqb_eq|by apply bool_decide_eq_true in Hnormal].
        -- cbn [List.filter clean_exit]. by rewrite Hclean.
      * set (entry := EvLog warning "dnsmasq"
                        ("failed to release ip addr " +:+ as_string ip
                           +:+ " with mac " +:+ hw_addr
                           +:+ ", exit_code: " +:+ pretty exit_code)).
        destruct (IH (emit entry w))
          as (logs & Hwarn & Hrun & Herr & Hfin & Hlen).
        exists (entry :: logs). split; [by constructor|]. split.
        { cbn [deliver_all deliver].
          assert (log_exit_status ip hw_addr exit_code exit_status (s, w)
                  = (Returns tt, (s, emit entry w))) as Hslot
            by (unfold log_exit_status; by rewrite Hclean).
          rewrite (bind_returns _ _ _ _ _ Hslot).
          rewrite Hrun, emit_as_emit_all, emit_all_emit_all. reflexivity. }
        split; [|split].
        -- intros e' [[=]|He']%elem_of_cons.
           by apply list_elem_of_further, Herr.
        -- intros c st [[= -> ->]|He']%elem_of_cons Hc;
             [apply list_elem_of_here|].
           apply list_elem_of_further. by apply (Hfin c st).
        -- cbn [List.filter clean_exit]. rewrite Hclean. cbn. by rewrite Hlen.
Qed.

(** C5: when [get_ip_for] returns an IP for a hardware address,
    [release_mac] starts the helper once, with the bridge name, the IP and
    the hardware address as its arguments in this order, and waits for it.
    Every launch error and every exit that is not exit code 0 with a
    normal exit is written to the log as a warning with the text of the
    code, nothing else is written, and [release_mac] returns whatever the
    helper signals. *)
Theorem release_mac_runs_helper (s : DNSMasqServer) (w : World)
    (hw_addr : string) (ip : IPAddress) :
  (get_ip_for hw_addr (s, w)).1 = Returns (Some ip) →
  let run := EvHelperStart "dhcp_release" [bridge_name s; as_string ip; hw_addr] in
  let signals :=
    helper_signals (env w) "dhcp_release" [bridge_name s; as_string ip; hw_addr] in
  ∃ logs,
    Forall (λ e, is_warning e = true) logs
    ∧ release_mac hw_addr (s, w) =
        (Returns tt, (s, emit_all (run :: EvHelperWaitForFinished :: logs) w))
    ∧ List.filter is_helper_start (new_events w (release_mac hw_addr (s, w)).2.2)
        = [run]
    ∧ (∀ e, errorOccurred e ∈ signals →
         EvLog warning "dnsmasq"
           ("failed to release ip addr " +:+ as_string ip +:+ " with mac "
              +:+ hw_addr +:+ ": " +:+ qenum_to_string e) ∈ logs)
    ∧ (∀ exit_code exit_status,
         finished exit_code exit_status ∈ signals →
         ¬ (exit_code = 0 ∧ exit_status = NormalExit) →
         EvLog warning "dnsmasq"
           ("failed to release ip addr " +:+ as_string ip +:+ " with mac "
              +:+ hw_addr +:+ ", exit_code: " +:+ pretty exit_code) ∈ logs)
    ∧ length logs = length (List.filter (λ sg, negb (clean_exit sg)) signals).
Proof.
  intros Hsome run signals.
  rewrite get_ip_for_run in Hsome. cbn [fst] in Hsome. injection Hsome as Hsome.
  destruct (deliver_all_reported ip hw_addr signals s
              (emit EvHelperWaitForFinished (emit run w)))
    as (logs & Hwarn & Hlogs & Herr & Hfin & Hlen).
  assert (release_mac hw_addr (s, w) =
            (Returns tt, (s, emit_all (run :: EvHelperWaitForFinished :: logs) w)))
    as Hrun.
  { unfold release_mac.
    rewrite (bind_returns _ _ _ _ _ (get_ip_for_run hw_addr s w)), Hsome.
    unfold QProcess_start, QProcess_waitForFinished. run_op.
    etrans; [exact Hlogs|].
    rewrite !emit_as_emit_all, !emit_all_emit_all. reflexivity. }
  exists logs. split; [exact Hwarn|]. split; [exact Hrun|].
  split; [|by repeat split].
  rewrite Hrun. cbn [snd]. rewrite new_events_emit_all.
  cbn [List.filter is_helper_start run].
  by rewrite warnings_start_no_helper.
Qed.

End Release.

(** ** The properties on the test platform *)

Section Samples.
#[local] Existing Instance test_platform.




(** A line cut short before the records, and a file that is missing, cannot
    be read, or is empty. *)
Example get_ip_for_tolerant_sample :
  (get_ip_for "52:54:00:12:34:56"
     (sample_server, world_with obliging_env (Some (Readable "1700000000 52:54:00:12:34:56")))).1
    = Returns None
  ∧ (get_ip_for "52:54:00:12:34:56" (sample_server, bare_world)).1 = Returns None
  ∧ (get_ip_for "52:54:00:12:34:56"
       (sample_server, world_with obliging_env (Some Unreadable))).1 = Returns None
  ∧ (get_ip_for "52:54:00:12:34:56"
       (sample_server, world_with obliging_env (Some (Readable "")))).1 = Returns None.
Proof. repeat split; vm_compute; reflexivity. Qed.

(** Releasing an address without a lease. *)
Lemma release_mac_without_lease_sample :
  release_mac "aa:bb:cc:dd:ee:ff" (sample_server, sample_world) =
    (Returns tt,
     (sample_server,
      emit (EvLog warning "dnsmasq"
              "attempting to release non-existant addr: aa:bb:cc:dd:ee:ff")
        sample_world))
  ∧ count is_helper_start
      (new_events sample_world
         (release_mac "aa:bb:cc:dd:ee:ff" (sample_server, sample_world)).2.2)
    = 0%nat.
Proof.
  apply (release_mac_without_lease sample_server sample_world
           "aa:bb:cc:dd:ee:ff").
  vm_compute. reflexivity.
Defined.

(** Releasing an address with a lease, with a helper that crashes: the
    crash and the exit code are there in the log. *)
Lemma release_mac_runs_helper_sample :
  ∃ logs,
    Forall (λ e, is_warning e = true) logs
    ∧ release_mac "52:54:00:12:34:56" (sample_server, stubborn_world) =
        (Returns tt,
         (sample_server,
          emit_all
            (EvHelperStart "dhcp_release"
               ["mpbr0"; "10.10.0.5"; "52:54:00:12:34:56"]
             :: EvHelperWaitForFinished :: logs) stubborn_world))
    ∧ List.filter is_helper_start
        (new_events stubborn_world
           (release_mac "52:54:00:12:34:56" (sample_server, stubborn_world)).2.2)
      = [EvHelperStart "dhcp_release"
           ["mpbr0"; "10.10.0.5"; "52:54:00:12:34:56"]]
    ∧ EvLog warning "dnsmasq"
        "failed to release ip addr 10.10.0.5 with mac 52:54:00:12:34:56: Crashed"
      ∈ logs
    ∧ EvLog warning "dnsmasq"
        "failed to release ip addr 10.10.0.5 with mac 52:54:00:12:34:56, exit_code: 11"
      ∈ logs
    ∧ length logs = 2%nat.
Proof.
  destruct (release_mac_runs_helper sample_server stubborn_world
              "52:54:00:12:34:56" (IPAddress_from_string "10.10.0.5"))
    as (logs & Hwarn & Hrun & Hstart & Herr & Hfin & Hlen);
    [vm_compute; reflexivity|].
  exists logs. split; [exact Hwarn|]. split; [exact Hrun|].
  split; [exact Hstart|]. split; [|split; [|exact Hlen]].
  - apply (Herr Crashed). vm_compute. apply list_elem_of_here.
  - apply (Hfin 11 CrashExit).
    + vm_compute. apply list_elem_of_further, list_elem_of_here.
    + intros [Hcode _]. discriminate Hcode.
Defined.

(** The health check of a running daemon, and of one that is gone and
    does not come back. *)
Lemma check_dnsmasq_running_restarts_sample :
  check_dnsmasq_running (sample_server, sample_world)
    = (Returns tt, (sample_server, sample_world))
  ∧ count is_start
      (new_events stubborn_world
         (check_dnsmasq_running (sample_server, stubborn_world)).2.2)
    = 1%nat.
Proof.
  split.
  - refine (proj1 (check_dnsmasq_running_restarts sample_server sample_world
                     _ eq_refl) _).
    vm_compute. reflexivity.
  - refine (proj2 (proj2 (proj2 (check_dnsmasq_running_restarts sample_server
                                   stubborn_world _ eq_refl) _))).
    vm_compute. reflexivity.
Defined.

(** A daemon that does not start, with a failure detail. *)
Lemma start_failure_is_fatal_sample :
  (start_dnsmasq (sample_server, stubborn_world)).1 =
    Throws "Multipass dnsmasq failed to start: dnsmasq: failed to create listening socket"
  ∧ (check_dnsmasq_running (sample_server, stubborn_world)).1 =
    Throws "Multipass dnsmasq failed to start: dnsmasq: failed to create listening socket"
  ∧ (DNSMasqServer_new "/tmp/net1" "mpbr0" "10.10.0" stubborn_world).1 =
    Throws "Multipass dnsmasq failed to start: dnsmasq: failed to create listening socket"
  ∧ last (new_events stubborn_world
            (DNSMasqServer_new "/tmp/net1" "mpbr0" "10.10.0" stubborn_world).2)
    = Some (EvKill 0).
Proof.
  destruct (start_failure_is_fatal sample_server stubborn_world eq_refl)
    as ([Hstart _] & Hcheck & Hnew).
  split; [exact Hstart|].
  split; [refine (proj1 (Hcheck _ eq_refl _)); vm_compute; reflexivity|].
  split; [exact (proj1 (Hnew "/tmp/net1" "mpbr0" "10.10.0"))|].
  exact (proj2 (Hnew "/tmp/net1" "mpbr0" "10.10.0")).
Defined.

(** Destruction with a daemon that exits when asked to, and with one that
    ignores both termination and kill. *)
Lemma destruction_sequence_sample :
  count is_kill
    (new_events sample_world
       (DNSMasqServer_delete (sample_server, sample_world)).2.2) = 0%nat
  ∧ DNSMasqServer_delete (sample_server, stubborn_world) =
      (Returns tt,
       (sample_server,
        emit_all
          [EvDisconnect (FinishedOf 0);
           EvLog debug "dnsmasq" "terminating";
           EvTerminate 0;
           EvWaitForFinished 0 1000 false;
           EvLog info "dnsmasq" "failed to terminate nicely, killing";
           EvKill 0;
           EvWaitForFinished 0 100 false;
           EvLog warning "dnsmasq" "failed to kill"] stubborn_world)).
Proof.
  split.
  - refine (proj2 (proj1 (destruction_sequence sample_server sample_world
                            _ eq_refl) _)).
    vm_compute. reflexivity.
  - refine (proj2 (proj2 (proj2 (destruction_sequence sample_server
                                   stubborn_world _ eq_refl) _)) _);
      vm_compute; reflexivity.
Defined.

(** Constructing in the data directory [/tmp/net1]. *)
Lemma conf_file_fresh_leases_fixed_sample :
  (fileName (conf_file sample_server)
     ∈ ["/tmp/net1/dnsmasq-Hk3fQa.conf"; "/tmp/net1/dnsmasq-pT8zLw.conf"]
   ∧ file_exists (fileName (conf_file sample_server)) bare_world = false
   ∧ file_exists (fileName (conf_file sample_server))
       (DNSMasqServer_new "/tmp/net1" "mpbr0" "10.10.0" bare_world).2 = true)
  ∧ leases_path sample_server = "/tmp/net1/dnsmasq.leases".
Proof.
  assert (DNSMasqServer_new "/tmp/net1" "mpbr0" "10.10.0" bare_world =
            (Returns sample_server,
             (DNSMasqServer_new "/tmp/net1" "mpbr0" "10.10.0" bare_world).2))
    as Hnew by (vm_compute; reflexivity).
  destruct (conf_file_fresh_leases_fixed "/tmp/net1" "mpbr0" "10.10.0"
              bare_world sample_server _ Hnew) as [Hconf Hleases].
  split; [|exact Hleases].
  destruct Hconf as (Hdrawn & Hfree & Hmade & _); [discriminate|].
  repeat split; assumption.
Defined.

(** C9 fails for the lease file: two objects made one after the other in
    the same data directory have config files of their own and one and
    the same lease file. *)
Lemma leases_path_shared :
  (DNSMasqServer_new "/tmp/net1" "mpbr0" "10.10.0" bare_world).1
    = Returns sample_server
  ∧ (DNSMasqServer_new "/tmp/net1" "mpbr1" "10.10.1"
       (DNSMasqServer_new "/tmp/net1" "mpbr0" "10.10.0" bare_world).2).1
    = Returns second_server
  ∧ fileName (conf_file sample_server) ≠ fileName (conf_file second_server)
  ∧ leases_path sample_server = leases_path second_server.
Proof.
  split; [vm_compute; reflexivity|].
  split; [vm_compute; reflexivity|].
  split; [discriminate|reflexivity].
Qed.


End Samples.

(** * Further properties *)

(** ** Lines written and read *)

Lemma append_empty (s : string) : "" +:+ s = s.
Proof. reflexivity. Qed.

Lemma append_String (c : ascii) (s t : string) :
  String c s +:+ t = String c (s +:+ t).
Proof. reflexivity. Qed.




(** A stream that ends in a newline delivers a line. *)
Lemma getlines_newline_cons (a : string) :
  ∃ l ls, getlines (a +:+ String newline "") = l :: ls.
Proof.
  induction a as [|c a (l & ls & IH)];
    rewrite ?append_empty, ?append_String; cbn [getlines].
  - rewrite Ascii.eqb_refl. by eexists _, _.
  - destruct (Ascii.eqb c newline); [by eexists _, _|].
    rewrite IH. by eexists _, _.
Qed.

(** What follows a newline is read on its own. *)
Lemma getlines_after_newline (a b : string) :
  getlines (a +:+ String newline b) =
    (getlines (a +:+ String newline "") ++ getlines b)%list.
Proof.
  induction a as [|c a IH];
    rewrite ?append_empty, ?append_String; cbn [getlines].
  - by rewrite Ascii.eqb_refl.
  - destruct (Ascii.eqb c newline); [by rewrite IH|].
    rewrite IH. by destruct (getlines_newline_cons a) as (l & ls & ->).
Qed.

Section LeaseFileMore.
Context `{Platform}.

Lemma scan_leases_some_inv (addr : string) (lines : list string)
    (ip : IPAddress) :
  scan_leases addr lines = Some ip →
  ∃ pre line post,
    lines = (pre ++ line :: post)%list
    ∧ (∀ l, l ∈ pre → lease_of addr l = false)
    ∧ lease_of addr line = true
    ∧ ip = IPAddress_from_string (ip_field line).
Proof.
  induction lines as [|l lines IH]; [discriminate|].
  rewrite scan_leases_cons. destruct (lease_of addr l) eqn:Hl.
  - intros [= <-]. exists [], l, lines. repeat split; [|done].
    intros l' Hl'. by apply elem_of_nil in Hl'.
  - intros (pre & line & post & -> & Hpre & Hline & Hip)%IH.
    exists (l :: pre), line, post. repeat split; [|done..].
    intros l' [->|Hl']%elem_of_cons; [done|by apply Hpre].
Qed.

Lemma scan_leases_none_inv (addr : string) (lines : list string) :
  scan_leases addr lines = None →
  ∀ l, l ∈ lines → lease_of addr l = false.
Proof.
  induction lines as [|l lines IH]; intros Hscan l' Hl'.
  - by apply elem_of_nil in Hl'.
  - rewrite scan_leases_cons in Hscan.
    destruct (lease_of addr l) eqn:Hl; [discriminate|].
    apply elem_of_cons in Hl' as [->|Hl']; [done|by apply IH].
Qed.

Lemma scan_leases_app_some (addr : string) (lines more : list string)
    (ip : IPAddress) :
  scan_leases addr lines = Some ip →
  scan_leases addr (lines ++ more) = Some ip.
Proof.
  induction lines as [|l lines IH]; [discriminate|].
  cbn [app]. rewrite !scan_leases_cons.
  by destruct (lease_of addr l).
Qed.

(** X2: an IP that [get_ip_for] returns is never made up: it is built from
    field 2 of a line of the lease file that has at least three fields and
    the address as field 1, and no line before that one is such a line. *)
Theorem get_ip_for_sound (s : DNSMasqServer) (w : World) (addr : string)
    (ip : IPAddress) :
  (get_ip_for addr (s, w)).1 = Returns (Some ip) →
  ∃ pre line post,
    lease_lines s w = (pre ++ line :: post)%list
    ∧ (3 ≤ length (fields_of line))%nat
    ∧ hw_field line = addr
    ∧ ip = IPAddress_from_string (ip_field line)
    ∧ ∀ l, l ∈ pre → (3 ≤ length (fields_of l))%nat → hw_field l ≠ addr.
Proof.
  rewrite get_ip_for_run. cbn [fst]. intros [= Hscan].
  destruct (scan_leases_some_inv _ _ _ Hscan)
    as (pre & line & post & Hlines & Hpre & Hline & Hip).
  apply lease_of_true in Hline as [Hlen Hhw].
  exists pre, line, post. repeat split; [done..|].
  intros l Hl Hlen' Hhw'.
  assert (lease_of addr l = true) as Htrue by by apply lease_of_true.
  by rewrite (Hpre l Hl) in Htrue.
Qed.

(** X3: [get_ip_for] returns none exactly when no line of the lease file
    with at least three fields has the address as field 1. *)
Theorem get_ip_for_none_iff (s : DNSMasqServer) (w : World) (addr : string) :
  (get_ip_for addr (s, w)).1 = Returns None ↔
  ∀ line, line ∈ lease_lines s w → (3 ≤ length (fields_of line))%nat →
    hw_field line ≠ addr.
Proof.
  rewrite get_ip_for_run. cbn [fst]. split.
  - intros [= Hscan] line Hin Hlen Hhw.
    assert (lease_of addr line = true) as Htrue by by apply lease_of_true.
    by rewrite (scan_leases_none_inv _ _ Hscan line Hin) in Htrue.
  - intros Hnone. f_equal. apply scan_leases_none.
    intros l Hl. apply not_true_is_false.
    intros [Hlen Hhw]%lease_of_true. by apply (Hnone l).
Qed.

(** X4: what is added to a lease file after a closing newline does not
    change the IP of an address that had one: the first record of an
    address keeps answering. *)
Theorem get_ip_for_append_stable (s : DNSMasqServer) (w w' : World)
    (old more addr : string) (ip : IPAddress) :
  files w !! leases_path s = Some (Readable (old +:+ String newline "")) →
  files w' !! leases_path s = Some (Readable (old +:+ String newline more)) →
  (get_ip_for addr (s, w)).1 = Returns (Some ip) →
  (get_ip_for addr (s, w')).1 = Returns (Some ip).
Proof.
  intros Hfile Hfile'. rewrite !get_ip_for_run. unfold lease_lines.
  rewrite Hfile, Hfile', (getlines_after_newline old more). cbn [fst].
  intros [= Hscan]. f_equal. by apply scan_leases_app_some.
Qed.

(** X5: of a line, [get_ip_for] looks at nothing but whether it has at
    least three fields, and then at fields 1 and 2: two lease files whose
    lines agree in that give the same answer, whatever the expiry times
    and the fields after the IP are. *)
Theorem get_ip_for_reads_two_fields (s : DNSMasqServer) (w w' : World)
    (addr : string) :
  Forall2 (λ l l',
             is_record l = is_record l'
             ∧ (is_record l = true →
                hw_field l = hw_field l' ∧ ip_field l = ip_field l'))
    (lease_lines s w) (lease_lines s w') →
  (get_ip_for addr (s, w)).1 = (get_ip_for addr (s, w')).1.
Proof.
  rewrite !get_ip_for_run. cbn [fst]. intros Hlines. f_equal.
  induction Hlines as [|l l' ls ls' [Hrec Hfields] _ IH]; [reflexivity|].
  rewrite !scan_leases_cons. unfold lease_of. rewrite <- Hrec.
  destruct (is_record l); cbn [andb]; [|exact IH].
  destruct Hfields as [<- <-]; [done|]. by rewrite IH.
Qed.

End LeaseFileMore.

(** ** What the member functions keep *)

Lemma prefix_append (a b : string) : String.prefix a (a +:+ b) = true.
Proof.
  induction a as [|c a IH]; [by destruct b|].
  rewrite append_String. cbn [String.prefix].
  by destruct (ascii_dec c c).
Qed.

Lemma find_all_false {A} (f : A → bool) (l : list A) :
  (∀ x, x ∈ l → f x = false) → List.find f l = None.
Proof.
  induction l as [|x l IH]; intros Hall; [reflexivity|].
  cbn [List.find]. rewrite (Hall x) by apply list_elem_of_here.
  apply IH. intros y Hy. by apply Hall, list_elem_of_further.
Qed.

Lemma keeps_refl (sw : DNSMasqServer * World) : keeps sw sw.
Proof. unfold keeps. tauto. Qed.

Lemma keeps_emit_all (s : DNSMasqServer) (w : World) (evs : list Event) :
  keeps (s, w) (s, emit_all evs w).
Proof. unfold keeps; cbn. tauto. Qed.

Section Keeping.
Context `{Platform}.

(** The exception of a failed start begins with the base message. *)
Lemma start_failure_prefix (detail : string) :
  String.prefix "Multipass dnsmasq failed to start"
    (if isEmpty detail then "Multipass dnsmasq failed to start"
     else "Multipass dnsmasq failed to start" +:+ ": " +:+ detail) = true.
Proof. destruct (isEmpty detail); [reflexivity|apply prefix_append]. Qed.

Lemma start_dnsmasq_keeps (s : DNSMasqServer) (w : World) :
  keeps (s, w) (start_dnsmasq (s, w)).2
  ∧ ∃ p, dnsmasq_cmd (start_dnsmasq (s, w)).2.1 = Some p
         ∧ process_spec p = spec_of s.
Proof.
  destruct (started_in_time (env w) (next_pid w)) eqn:Hstarted.
  - rewrite (start_dnsmasq_started _ _ Hstarted). unfold keeps; cbn.
    split; [|by eexists]. repeat split. right. by eexists.
  - rewrite (start_dnsmasq_failed _ _ Hstarted). unfold keeps; cbn.
    split; [|by eexists]. repeat split. right. by eexists.
Qed.

(** [release_mac] returns with the object as it was and outward calls
    only. *)
Lemma release_mac_frame (hw_addr : string) (s : DNSMasqServer) (w : World) :
  ∃ evs, release_mac hw_addr (s, w) = (Returns tt, (s, emit_all evs w)).
Proof.
  unfold release_mac.
  rewrite (bind_returns _ _ _ _ _ (get_ip_for_run hw_addr s w)).
  destruct (scan_leases hw_addr (lease_lines s w)) as [ip|].
  - unfold QProcess_start, QProcess_waitForFinished. run_op.
    match goal with
    | |- ∃ _, deliver_all ?ip ?hw ?sgs (?s, ?w1) = _ =>
        destruct (deliver_all_logs ip hw sgs s w1) as (logs & _ & ->)
    end.
    eexists. rewrite !emit_as_emit_all, !emit_all_emit_all. reflexivity.
  - eexists [_]. reflexivity.
Qed.

Lemma on_dnsmasq_finished_run (st : ProcessState) (s : DNSMasqServer)
    (w : World) :
  ∃ msg,
    on_dnsmasq_finished st (s, w) =
      (Returns tt, (s, emit (EvLog error "dnsmasq" msg) w)).
Proof. by eexists. Qed.

Lemma check_dnsmasq_running_null (s : DNSMasqServer) (w : World) :
  dnsmasq_cmd s = None →
  check_dnsmasq_running (s, w) = (NullDereference, (s, w)).
Proof.
  intros Hcmd. unfold check_dnsmasq_running. run_op. by rewrite Hcmd.
Qed.

(** Every call keeps the environment, the files and the configuration. *)
Lemma perform_keeps (c : Call) (sw : DNSMasqServer * World) :
  keeps sw (perform c sw).2.
Proof.
  destruct sw as [s w]. destruct c as [hw|hw| |st]; cbn [perform].
  - rewrite (bind_returns _ _ _ _ _ (get_ip_for_run hw s w)).
    apply keeps_refl.
  - destruct (release_mac_frame hw s w) as [evs ->]. apply keeps_emit_all.
  - destruct (dnsmasq_cmd s) as [p|] eqn:Hcmd.
    + rewrite (check_dnsmasq_running_run _ _ _ Hcmd).
      destruct (is_running (env w) (pid p)); [apply keeps_refl|].
      destruct (start_dnsmasq_keeps s
                  (emit (EvLog warning "dnsmasq" "Not running") w))
        as [Hkeeps _].
      exact Hkeeps.
    + rewrite (check_dnsmasq_running_null _ _ Hcmd). apply keeps_refl.
  - destruct (on_dnsmasq_finished_run st s w) as [msg ->].
    rewrite emit_as_emit_all. apply keeps_emit_all.
Qed.

(** An object that holds a process made from its configuration still
    does so after a call, and the call has not met a null pointer; only
    the health check can throw, and then with the start failure. *)
Lemma perform_sound (c : Call) (s : DNSMasqServer) (w : World) :
  (∃ p, dnsmasq_cmd s = Some p ∧ process_spec p = spec_of s) →
  (∃ p, dnsmasq_cmd (perform c (s, w)).2.1 = Some p
        ∧ process_spec p = spec_of s)
  ∧ match (perform c (s, w)).1 with
    | Returns _ => True
    | Throws what =>
        c = call_check_dnsmasq_running
        ∧ String.prefix "Multipass dnsmasq failed to start" what = true
    | NullDereference => False
    end.
Proof.
  intros (p & Hcmd & Hspec). destruct c as [hw|hw| |st]; cbn [perform].
  - rewrite (bind_returns _ _ _ _ _ (get_ip_for_run hw s w)). cbn. eauto.
  - destruct (release_mac_frame hw s w) as [evs ->]. cbn. eauto.
  - rewrite (check_dnsmasq_running_run _ _ _ Hcmd).
    destruct (is_running (env w) (pid p)); [cbn; eauto|].
    set (w1 := emit (EvLog warning "dnsmasq" "Not running") w).
    destruct (started_in_time (env w1) (next_pid w1)) eqn:Hstarted.
    + rewrite (start_dnsmasq_started _ _ Hstarted). cbn. eauto.
    + rewrite (start_dnsmasq_failed _ _ Hstarted). cbn [fst snd].
      split; [cbn; eauto|]. split; [reflexivity|apply start_failure_prefix].
  - destruct (on_dnsmasq_finished_run st s w) as [msg ->]. cbn. eauto.
Qed.

End Keeping.

(** ** Construction *)

Section Construction.
Context `{Platform}.

(** The constructor by the outcome of opening the config file and of the
    start. *)
Lemma DNSMasqServer_new_run (dir bridge net : string) (w : World) :
  ∃ s1 w1,
    DNSMasqServer_new dir bridge net w =
      (if started_in_time (env w) (next_pid w)
       then (Returns (set_finish_connection (FinishedOf (next_pid w))
                        (set_dnsmasq_cmd (new_process s1 w1) s1)),
             emit_all [EvLog debug "dnsmasq" "Starting dnsmasq";
                       EvCreateProcess (new_process s1 w1);
                       EvStart (next_pid w);
                       EvWaitForStarted (next_pid w) true;
                       EvConnectFinished (next_pid w)] (bump_pid w1))
       else (Throws (if isEmpty (failure_detail (env w) (next_pid w))
                     then "Multipass dnsmasq failed to start"
                     else "Multipass dnsmasq failed to start" +:+ ": "
                            +:+ failure_detail (env w) (next_pid w)),
             emit_all [EvLog debug "dnsmasq" "Starting dnsmasq";
                       EvCreateProcess (new_process s1 w1);
                       EvStart (next_pid w);
                       EvWaitForStarted (next_pid w) false;
                       EvKill (next_pid w)] (bump_pid w1)))
    ∧ env w1 = env w ∧ next_pid w1 = next_pid w ∧ trace w1 = trace w
    ∧ ((s1 = initial dir bridge net ∧ w1 = w
        ∧ List.find (λ name, negb (file_exists name w))
            (temp_names (env w) (absoluteFilePath dir "dnsmasq-XXXXXX.conf"))
          = None)
       ∨ ∃ name,
           s1 = set_conf_file
                  {| templateName := absoluteFilePath dir "dnsmasq-XXXXXX.conf";
                     fileName := name |} (initial dir bridge net)
           ∧ w1 = create_file name w
           ∧ file_exists name w = false
           ∧ List.find (λ name, negb (file_exists name w))
               (temp_names (env w) (absoluteFilePath dir "dnsmasq-XXXXXX.conf"))
             = Some name).
Proof.
  unfold DNSMasqServer_new.
  set (s0 := initial dir bridge net).
  destruct (List.find (λ name, negb (file_exists name w))
              (temp_names (env w) (templateName (conf_file s0))))
    as [name|] eqn:Hfind.
  - rewrite (constructor_body_run _ _ _ _ _ (conf_file_open_found _ _ _ Hfind)).
    pose proof (find_some _ _ Hfind) as [_ Hfree].
    apply negb_true_iff in Hfree.
    eexists _, (create_file name w).
    split; [|repeat split; right; by eexists].
    change (env (create_file name w)) with (env w).
    change (next_pid (create_file name w)) with (next_pid w).
    destruct (started_in_time (env w) (next_pid w)) eqn:Hstarted.
    + by rewrite start_dnsmasq_started.
    + by rewrite start_dnsmasq_failed.
  - rewrite (constructor_body_run _ _ _ _ _ (conf_file_open_none _ _ Hfind)).
    exists s0, w. split; [|repeat split; by left].
    destruct (started_in_time (env w) (next_pid w)) eqn:Hstarted.
    + by rewrite start_dnsmasq_started.
    + by rewrite start_dnsmasq_failed.
Qed.

(** X6: construction returns an object exactly when the daemon reports
    started; otherwise it throws, and it never meets a null pointer. *)
Theorem construction_succeeds_iff_started (dir bridge net : string)
    (w : World) :
  ((∃ s w', DNSMasqServer_new dir bridge net w = (Returns s, w'))
   ↔ started_in_time (env w) (next_pid w) = true)
  ∧ ((∃ what w', DNSMasqServer_new dir bridge net w = (Throws what, w'))
     ↔ started_in_time (env w) (next_pid w) = false)
  ∧ (DNSMasqServer_new dir bridge net w).1 ≠ NullDereference.
Proof.
  destruct (DNSMasqServer_new_run dir bridge net w) as (s1 & w1 & -> & _).
  destruct (started_in_time (env w) (next_pid w)); repeat split;
    try done; try (intros (? & ? & [=])); eauto.
Qed.

(** X7: when the daemon reports started, the constructed object has the
    data directory, bridge name and subnet it was given and a config file
    of the template in the data directory; it holds the process made from
    these, the exit notification is connected to that process, and the
    outward calls are: log, create, start, wait, connect. *)
Theorem construction_result (dir bridge net : string) (w : World) :
  started_in_time (env w) (next_pid w) = true →
  ∃ s w',
    DNSMasqServer_new dir bridge net w = (Returns s, w')
    ∧ data_dir s = dir ∧ bridge_name s = bridge ∧ subnet s = net
    ∧ templateName (conf_file s) = absoluteFilePath dir "dnsmasq-XXXXXX.conf"
    ∧ dnsmasq_cmd s = Some {| pid := next_pid w; process_spec := spec_of s |}
    ∧ finish_connection s = FinishedOf (next_pid w)
    ∧ new_events w w' =
        [EvLog debug "dnsmasq" "Starting dnsmasq";
         EvCreateProcess {| pid := next_pid w; process_spec := spec_of s |};
         EvStart (next_pid w);
         EvWaitForStarted (next_pid w) true;
         EvConnectFinished (next_pid w)].
Proof.
  intros Hstarted.
  destruct (DNSMasqServer_new_run dir bridge net w)
    as (s1 & w1 & -> & Henv & Hpid & Htrace & Hopen).
  rewrite Hstarted. eexists _, _. split; [reflexivity|].
  unfold new_process, spec_of. rewrite Hpid.
  destruct Hopen as [(-> & -> & _)|(name & -> & -> & _ & _)]; cbn;
    repeat split; by apply new_events_grown.
Qed.

(** X8: the result of [conf_file.open()] is not looked at: when every
    name drawn for the config file is taken, the daemon is started all the
    same, with an empty config file path, and no file is created. *)
Theorem construction_without_conf_file (dir bridge net : string) (w : World) :
  (∀ name,
     name ∈ temp_names (env w) (absoluteFilePath dir "dnsmasq-XXXXXX.conf") →
     file_exists name w = true) →
  started_in_time (env w) (next_pid w) = true →
  ∃ s w' p,
    DNSMasqServer_new dir bridge net w = (Returns s, w')
    ∧ fileName (conf_file s) = ""
    ∧ dnsmasq_cmd s = Some p
    ∧ spec_conf_file_path (process_spec p) = ""
    ∧ files w' = files w.
Proof.
  intros Htaken Hstarted.
  assert (List.find (λ name, negb (file_exists name w))
            (temp_names (env w) (absoluteFilePath dir "dnsmasq-XXXXXX.conf"))
          = None) as Hfind.
  { apply find_all_false. intros name Hname. by rewrite (Htaken name Hname). }
  destruct (DNSMasqServer_new_run dir bridge net w)
    as (s1 & w1 & -> & _ & _ & _ & Hopen).
  rewrite Hstarted.
  destruct Hopen as [(-> & -> & _)|(name & _ & _ & _ & Hfound)].
  - eexists _, _, _. split; [reflexivity|]. by cbn.
  - congruence.
Qed.

(** X9: construction leaves every file that exists as it is, whether it
    returns or throws.  It adds no file, or exactly one: an empty file
    under a name that was drawn for the config file template and that no
    file had; this name is the config file name of the object when one
    is returned. *)
Theorem construction_keeps_files (dir bridge net : string) (w : World) :
  (∀ path f,
     files w !! path = Some f →
     files (DNSMasqServer_new dir bridge net w).2 !! path = Some f)
  ∧ (files (DNSMasqServer_new dir bridge net w).2 = files w
     ∨ ∃ name,
         name ∈ temp_names (env w) (absoluteFilePath dir "dnsmasq-XXXXXX.conf")
         ∧ files w !! name = None
         ∧ files (DNSMasqServer_new dir bridge net w).2
             = <[name := Readable ""]> (files w)
         ∧ ∀ s, (DNSMasqServer_new dir bridge net w).1 = Returns s →
             fileName (conf_file s) = name).
Proof.
  destruct (DNSMasqServer_new_run dir bridge net w)
    as (s1 & w1 & -> & _ & _ & _ & Hopen).
  destruct Hopen as [(-> & -> & _)|(name & -> & -> & Hfree & Hfound)].
  - split; [|left]; by destruct (started_in_time (env w) (next_pid w)).
  - assert (files w !! name = None) as Hnone.
    { unfold file_exists in Hfree. by destruct (files w !! name). }
    split.
    + intros path f Hpath.
      assert (files (create_file name w) !! path = Some f) as Hpath1.
      { cbn. rewrite lookup_insert_ne; [done|]. intros ->. congruence. }
      by destruct (started_in_time (env w) (next_pid w)).
    + right. exists name.
      apply find_some in Hfound as [Hin _]. apply list_elem_of_In in Hin.
      repeat split; [done..| |];
        destruct (started_in_time (env w) (next_pid w)); try done.
      by intros s [= <-].
Qed.

End Construction.

(** ** The life of an object *)

Section Life.
Context `{Platform}.

(** The body of the destructor by the answers of the two waits. *)
Lemma DNSMasqServer_delete_run (s : DNSMasqServer) (w : World) (p : Process) :
  dnsmasq_cmd s = Some p →
  DNSMasqServer_delete (s, w) =
    (Returns tt,
     (s, emit_all
           ([EvDisconnect (finish_connection s);
             EvLog debug "dnsmasq" "terminating";
             EvTerminate (pid p)] ++
            if finished_within (env w) (pid p) 1000
            then [EvWaitForFinished (pid p) 1000 true]
            else [EvWaitForFinished (pid p) 1000 false;
                  EvLog info "dnsmasq" "failed to terminate nicely, killing";
                  EvKill (pid p)] ++
                 if finished_within (env w) (pid p) 100
                 then [EvWaitForFinished (pid p) 100 true]
                 else [EvWaitForFinished (pid p) 100 false;
                       EvLog warning "dnsmasq" "failed to kill"])
           w)).
Proof.
  intros Hcmd.
  destruct s as [dir bridge net conf cmd conn]. cbn in Hcmd. subst cmd.
  unfold DNSMasqServer_delete, Process_terminate, Process_wait_for_finished,
    Process_kill. run_op.
  destruct (finished_within (env w) (pid p) 1000); cbn.
  - unfold emit_all, emit; cbn. rewrite <- !app_assoc. reflexivity.
  - destruct (finished_within (env w) (pid p) 100); cbn; run_op;
      unfold emit_all, emit; cbn; rewrite <- !app_assoc; reflexivity.
Qed.

(** Without a process the destructor stops at the first dereference. *)
Lemma DNSMasqServer_delete_null (s : DNSMasqServer) (w : World) :
  dnsmasq_cmd s = None →
  DNSMasqServer_delete (s, w) =
    (NullDereference,
     (s, emit_all [EvDisconnect (finish_connection s);
                   EvLog debug "dnsmasq" "terminating"] w)).
Proof.
  intros Hcmd.
  destruct s as [dir bridge net conf cmd conn]. cbn in Hcmd. subst cmd.
  unfold DNSMasqServer_delete. run_op.
  unfold emit_all, emit; cbn. rewrite <- !app_assoc. reflexivity.
Qed.

(** X10: no call of a member function, no exit notification and not the
    body of the destructor creates, changes or removes a file: the lease
    file is only ever read. *)
Theorem member_functions_write_no_file (c : Call) (s : DNSMasqServer)
    (w : World) :
  files (perform c (s, w)).2.2 = files w
  ∧ files (DNSMasqServer_delete (s, w)).2.2 = files w.
Proof.
  split.
  - by destruct (perform_keeps c (s, w)) as (_ & Hfiles & _).
  - destruct (dnsmasq_cmd s) as [p|] eqn:Hcmd.
    + by rewrite (DNSMasqServer_delete_run _ _ _ Hcmd).
    + by rewrite (DNSMasqServer_delete_null _ _ Hcmd).
Qed.

Lemma spec_of_kept (s s' : DNSMasqServer) :
  data_dir s' = data_dir s → bridge_name s' = bridge_name s →
  subnet s' = subnet s → conf_file s' = conf_file s →
  spec_of s' = spec_of s.
Proof. unfold spec_of. by intros -> -> -> ->. Qed.

(** Along the life of an object that holds a process made from its
    configuration, the configuration stays and so does that. *)
Lemma life_keeps (sw0 sw : DNSMasqServer * World) :
  (∃ p, dnsmasq_cmd sw0.1 = Some p ∧ process_spec p = spec_of sw0.1) →
  rtc step sw0 sw →
  data_dir sw.1 = data_dir sw0.1
  ∧ bridge_name sw.1 = bridge_name sw0.1
  ∧ subnet sw.1 = subnet sw0.1
  ∧ conf_file sw.1 = conf_file sw0.1
  ∧ ∃ p, dnsmasq_cmd sw.1 = Some p ∧ process_spec p = spec_of sw0.1.
Proof.
  intros Hsound Hlife. revert sw Hlife. apply rtc_ind_r.
  - by repeat split.
  - intros y z Hlife Hstep IH.
    destruct IH as (Hdir & Hbridge & Hnet & Hconf & Hheld).
    destruct Hstep as [c [s w]|s w w']; [|by repeat split].
    cbn [fst] in *.
    assert (spec_of s = spec_of sw0.1) as Hspec by by apply spec_of_kept.
    destruct (perform_keeps c (s, w))
      as (_ & _ & Hdir' & Hbridge' & Hnet' & Hconf' & _).
    cbn [fst] in *.
    destruct (perform_sound c s w) as [(p' & Hcmd' & Hspec') _];
      [by rewrite Hspec|].
    repeat split; [congruence..|].
    exists p'. split; [done|congruence].
Qed.

(** A constructed object holds a process made from its configuration. *)
Lemma DNSMasqServer_new_sound (dir bridge net : string) (w : World)
    (s : DNSMasqServer) (w' : World) :
  DNSMasqServer_new dir bridge net w = (Returns s, w') →
  data_dir s = dir ∧ bridge_name s = bridge ∧ subnet s = net
  ∧ ∃ p, dnsmasq_cmd s = Some p ∧ process_spec p = spec_of s.
Proof.
  destruct (DNSMasqServer_new_run dir bridge net w)
    as (s1 & w1 & -> & _ & _ & _ & Hopen).
  destruct (started_in_time (env w) (next_pid w)); [|done].
  intros [= <- _].
  destruct Hopen as [(-> & _)|(name & -> & _)]; cbn;
    repeat split; by eexists.
Qed.

(** X11: whatever is called on a constructed object, however often the
    health check restarts the daemon and whatever happens outside, the
    object keeps the data directory, bridge name, subnet and config file
    of its construction, and the process it holds is one made from
    exactly these: a restart runs the daemon with the configuration of
    the first start. *)
Theorem configuration_is_kept (dir bridge net : string) (w : World)
    (s : DNSMasqServer) (w1 : World) (s' : DNSMasqServer) (w' : World) :
  DNSMasqServer_new dir bridge net w = (Returns s, w1) →
  rtc step (s, w1) (s', w') →
  data_dir s' = dir ∧ bridge_name s' = bridge ∧ subnet s' = net
  ∧ conf_file s' = conf_file s
  ∧ ∃ p, dnsmasq_cmd s' = Some p
         ∧ process_spec p =
             {| spec_data_dir := dir; spec_bridge_name := bridge;
                spec_subnet := net;
                spec_conf_file_path := fileName (conf_file s) |}.
Proof.
  intros Hnew Hlife.
  destruct (DNSMasqServer_new_sound _ _ _ _ _ _ Hnew)
    as (Hdir & Hbridge & Hnet & Hheld).
  destruct (life_keeps (s, w1) (s', w') Hheld Hlife)
    as (Hdir' & Hbridge' & Hnet' & Hconf' & p & Hcmd & Hspec).
  cbn [fst] in *. repeat split; [congruence..|].
  exists p. split; [done|]. rewrite Hspec. unfold spec_of. congruence.
Qed.

(** X12: at any point in the life of a constructed object, after any
    calls and any changes outside, [dnsmasq_cmd] is not null where it is
    dereferenced: the health check returns or throws, and what it throws
    begins with the message of a failed start; the body of the destructor
    returns. *)
Theorem no_null_process_in_life (dir bridge net : string) (w : World)
    (s : DNSMasqServer) (w1 : World) (s' : DNSMasqServer) (w' : World) :
  DNSMasqServer_new dir bridge net w = (Returns s, w1) →
  rtc step (s, w1) (s', w') →
  (∃ p, dnsmasq_cmd s' = Some p)
  ∧ (check_dnsmasq_running (s', w')).1 ≠ NullDereference
  ∧ (∀ what,
       (check_dnsmasq_running (s', w')).1 = Throws what →
       String.prefix "Multipass dnsmasq failed to start" what = true)
  ∧ (DNSMasqServer_delete (s', w')).1 = Returns tt.
Proof.
  intros Hnew Hlife.
  destruct (DNSMasqServer_new_sound _ _ _ _ _ _ Hnew) as (_ & _ & _ & Hheld).
  destruct (life_keeps (s, w1) (s', w') Hheld Hlife)
    as (Hdir & Hbridge & Hnet & Hconf & p & Hcmd & Hspec).
  cbn [fst] in *.
  assert (∃ p, dnsmasq_cmd s' = Some p ∧ process_spec p = spec_of s')
    as Hheld'.
  { exists p. split; [done|]. rewrite Hspec. symmetry. by apply spec_of_kept. }
  destruct (perform_sound call_check_dnsmasq_running s' w' Hheld')
    as [_ Hcheck].
  cbn [perform] in Hcheck.
  split; [by exists p|]. split; [|split].
  - intros Hnull. by rewrite Hnull in Hcheck.
  - intros what Hthrows. rewrite Hthrows in Hcheck. by destruct Hcheck.
  - by rewrite (DNSMasqServer_delete_run _ _ _ Hcmd).
Qed.

(** X13: a health check that finds the daemon gone and sees the new one
    start returns with the new process in place of the old one, made from
    the same configuration, and with the exit notification connected to
    the new process; it neither terminates nor kills anything. *)
Theorem restart_replaces_the_process (s : DNSMasqServer) (w : World)
    (old : Process) :
  dnsmasq_cmd s = Some old →
  is_running (env w) (pid old) = false →
  started_in_time (env w) (next_pid w) = true →
  ∃ s' w',
    check_dnsmasq_running (s, w) = (Returns tt, (s', w'))
    ∧ dnsmasq_cmd s' = Some {| pid := next_pid w; process_spec := spec_of s |}
    ∧ finish_connection s' = FinishedOf (next_pid w)
    ∧ spec_of s' = spec_of s
    ∧ new_events w w' =
        [EvLog warning "dnsmasq" "Not running";
         EvLog debug "dnsmasq" "Starting dnsmasq";
         EvCreateProcess {| pid := next_pid w; process_spec := spec_of s |};
         EvStart (next_pid w);
         EvWaitForStarted (next_pid w) true;
         EvConnectFinished (next_pid w)].
Proof.
  intros Hcmd Hgone Hstarted.
  rewrite (check_dnsmasq_running_run _ _ _ Hcmd), Hgone.
  rewrite start_dnsmasq_started by done.
  eexists _, _. split; [reflexivity|]. cbn. repeat split.
  apply new_events_grown. cbn. by rewrite <- app_assoc.
Qed.

End Life.

(** ** The helper and the exit notification *)

Section Signals.
Context `{Platform}.

Lemma deliver_counted (ip : IPAddress) (hw_addr : string) (sg : QProcessSignal)
    (s : DNSMasqServer) (w : World) :
  ∃ logs,
    Forall (λ e, is_warning e = true) logs
    ∧ length logs = (if clean_exit sg then 0 else 1)%nat
    ∧ deliver ip hw_addr sg (s, w) = (Returns tt, (s, emit_all logs w)).
Proof.
  destruct sg as [e|exit_code exit_status]; cbn [deliver clean_exit].
  - exists [EvLog warning "dnsmasq"
              ("failed to release ip addr " +:+ as_string ip +:+ " with mac "
                 +:+ hw_addr +:+ ": " +:+ qenum_to_string e)].
    split; [by repeat constructor|]. by split.
  - unfold log_exit_status.
    destruct ((exit_code =? 0) && bool_decide (exit_status = NormalExit)).
    + exists []. split; [constructor|]. split; [done|].
      by rewrite emit_all_nil.
    + exists [EvLog warning "dnsmasq"
                ("failed to release ip addr " +:+ as_string ip +:+ " with mac "
                   +:+ hw_addr +:+ ", exit_code: " +:+ pretty exit_code)].
      split; [by repeat constructor|]. by split.
Qed.

Lemma deliver_all_counted (ip : IPAddress) (hw_addr : string)
    (sgs : list QProcessSignal) (s : DNSMasqServer) (w : World) :
  ∃ logs,
    Forall (λ e, is_warning e = true) logs
    ∧ length logs = length (List.filter (λ sg, negb (clean_exit sg)) sgs)
    ∧ deliver_all ip hw_addr sgs (s, w) = (Returns tt, (s, emit_all logs w)).
Proof.
  revert w. induction sgs as [|sg sgs IH]; intros w.
  - exists []. split; [constructor|]. split; [done|]. by rewrite emit_all_nil.
  - destruct (deliver_counted ip hw_addr sg s w)
      as (logs1 & Hwarn1 & Hlen1 & Hrun1).
    destruct (IH (emit_all logs1 w)) as (logs2 & Hwarn2 & Hlen2 & Hrun2).
    exists (logs1 ++ logs2)%list. split; [by apply Forall_app|]. split.
    + rewrite length_app, Hlen1, Hlen2. cbn [List.filter].
      by destruct (clean_exit sg).
    + cbn [deliver_all]. rewrite (bind_returns _ _ _ _ _ Hrun1), Hrun2.
      by rewrite emit_all_emit_all.
Qed.

Lemma count_warnings (logs : list Event) :
  Forall (λ e, is_warning e = true) logs →
  count is_warning logs = length logs.
Proof.
  unfold count. induction 1 as [|e logs He _ IH]; [reflexivity|].
  cbn [List.filter]. rewrite He. cbn [length]. by rewrite IH.
Qed.

(** X14: with a lease, [release_mac] logs one warning for each
    [errorOccurred] and for each [finished] that is not exit code 0 with
    a normal exit (exit code 0 after a crash is logged too), and makes no
    other outward call besides the start of the helper and the wait: a
    helper that exits cleanly leaves no entry in the log. *)
Theorem release_mac_logs_each_failure (s : DNSMasqServer) (w : World)
    (hw_addr : string) (ip : IPAddress) :
  (get_ip_for hw_addr (s, w)).1 = Returns (Some ip) →
  let failures :=
    List.filter (λ sg, negb (clean_exit sg))
      (helper_signals (env w) "dhcp_release"
         [bridge_name s; as_string ip; hw_addr]) in
  count is_warning (new_events w (release_mac hw_addr (s, w)).2.2)
    = length failures
  ∧ length (new_events w (release_mac hw_addr (s, w)).2.2)
    = (2 + length failures)%nat.
Proof.
  intros Hsome failures. subst failures.
  rewrite get_ip_for_run in Hsome. cbn [fst] in Hsome. injection Hsome as Hsome.
  unfold release_mac.
  rewrite (bind_returns _ _ _ _ _ (get_ip_for_run hw_addr s w)), Hsome.
  unfold QProcess_start, QProcess_waitForFinished. run_op.
  match goal with
  | |- context [deliver_all ?ip ?hw ?sgs (?s, ?w1)] =>
      destruct (deliver_all_counted ip hw sgs s w1)
        as (logs & Hwarn & Hlen & ->)
  end.
  cbn [fst snd].
  rewrite !emit_as_emit_all, !emit_all_emit_all, new_events_emit_all.
  cbn [app length]. rewrite <- Hlen. split; [|reflexivity].
  unfold count. cbn [List.filter is_warning].
  by apply count_warnings.
Qed.

(** X15: the exit notification of the daemon only writes one error to
    the log: the object stays as it is and no process is created,
    started, terminated or killed, so nothing is restarted from here.  The
    message begins with "died"; exit code 2 adds the hint about port 53 at
    its end, and any other exit code gives "died" alone or followed by the
    failure detail. *)
Theorem exit_notification_only_logs (st : ProcessState) (s : DNSMasqServer)
    (w : World) :
  ∃ msg,
    on_dnsmasq_finished st (s, w) =
      (Returns tt, (s, emit (EvLog error "dnsmasq" msg) w))
    ∧ String.prefix "died" msg = true
    ∧ (state_exit_code st = Some 2 →
       ∃ front, msg = front +:+ ". Ensure nothing is using port 53.")
    ∧ (state_exit_code st ≠ Some 2 →
       msg = if isEmpty (state_failure_message st) then "died"
             else "died" +:+ ": " +:+ state_failure_message st).
Proof.
  eexists. split; [reflexivity|].
  destruct (isEmpty (state_failure_message st)); cbn [negb];
    case_bool_decide as Hcode; repeat split;
    try done; try (intros _; by eexists).
Qed.

End Signals.

(** ** The further properties on the test platform *)

Section MoreSamples.
#[local] Existing Instance test_platform.

(** Splits a membership in a list that evaluates into its cases. *)
Ltac each_member Hin :=
  vm_compute in Hin;
  repeat (apply elem_of_cons in Hin as [->|Hin]);
  [..|by apply elem_of_nil in Hin].


(** The IP of hostA comes from the first line of [sample_leases]. *)
Lemma get_ip_for_sound_sample :
  ∃ pre line post,
    lease_lines sample_server sample_world = (pre ++ line :: post)%list
    ∧ (3 ≤ length (fields_of line))%nat
    ∧ hw_field line = "52:54:00:12:34:56"
    ∧ IPAddress_from_string "10.10.0.5" = IPAddress_from_string (ip_field line)
    ∧ ∀ l, l ∈ pre → (3 ≤ length (fields_of l))%nat →
        hw_field l ≠ "52:54:00:12:34:56".
Proof.
  refine (get_ip_for_sound sample_server sample_world "52:54:00:12:34:56"
            (IPAddress_from_string "10.10.0.5") _).
  vm_compute. reflexivity.
Defined.

(** A record added for hostA does not change the IP of hostA. *)
Lemma get_ip_for_append_stable_sample :
  (get_ip_for "52:54:00:12:34:56" (sample_server, grown_world)).1
    = Returns (Some (IPAddress_from_string "10.10.0.5")).
Proof.
  refine (get_ip_for_append_stable sample_server sample_world grown_world
            ("1700000000 52:54:00:12:34:56 10.10.0.5 hostA * * *"
               +:+ String newline
             "1700000100 52:54:00:ab:cd:ef 10.10.0.6 hostB * * *")
            "1700000900 52:54:00:12:34:56 10.10.0.77 hostA * * *"
            "52:54:00:12:34:56" (IPAddress_from_string "10.10.0.5") _ _ _);
    vm_compute; reflexivity.
Defined.

(** Other expiry times and names, the same answers. *)
Lemma get_ip_for_reads_two_fields_sample :
  (get_ip_for "52:54:00:ab:cd:ef" (sample_server, sample_world)).1
    = (get_ip_for "52:54:00:ab:cd:ef"
         (sample_server,
          world_with obliging_env (Some (Readable renamed_leases)))).1.
Proof.
  refine (get_ip_for_reads_two_fields sample_server sample_world
            (world_with obliging_env (Some (Readable renamed_leases)))
            "52:54:00:ab:cd:ef" _).
  let l := eval vm_compute in (lease_lines sample_server sample_world) in
  change (lease_lines sample_server sample_world) with l.
  let l := eval vm_compute in
    (lease_lines sample_server
       (world_with obliging_env (Some (Readable renamed_leases)))) in
  change (lease_lines sample_server
            (world_with obliging_env (Some (Readable renamed_leases))))
    with l.
  repeat constructor; try (intros _; split); vm_compute; reflexivity.
Defined.

(** The scenario of the daemon that starts. *)
Lemma construction_result_sample :
  ∃ s w',
    DNSMasqServer_new "/tmp/net1" "mpbr0" "10.10.0" bare_world = (Returns s, w')
    ∧ data_dir s = "/tmp/net1" ∧ bridge_name s = "mpbr0" ∧ subnet s = "10.10.0"
    ∧ templateName (conf_file s) = "/tmp/net1/dnsmasq-XXXXXX.conf"
    ∧ dnsmasq_cmd s = Some {| pid := 0; process_spec := spec_of s |}
    ∧ finish_connection s = FinishedOf 0
    ∧ new_events bare_world w' =
        [EvLog debug "dnsmasq" "Starting dnsmasq";
         EvCreateProcess {| pid := 0; process_spec := spec_of s |};
         EvStart 0; EvWaitForStarted 0 true; EvConnectFinished 0].
Proof.
  exact (construction_result "/tmp/net1" "mpbr0" "10.10.0" bare_world eq_refl).
Defined.

(** Both names of the config file are taken. *)
Lemma construction_without_conf_file_sample :
  ∃ s w' p,
    DNSMasqServer_new "/tmp/net1" "mpbr0" "10.10.0" crowded_world
      = (Returns s, w')
    ∧ fileName (conf_file s) = ""
    ∧ dnsmasq_cmd s = Some p
    ∧ spec_conf_file_path (process_spec p) = ""
    ∧ files w' = files crowded_world.
Proof.
  refine (construction_without_conf_file "/tmp/net1" "mpbr0" "10.10.0"
            crowded_world _ eq_refl).
  intros name Hin. each_member Hin; vm_compute; reflexivity.
Defined.

(** The lease file is there after construction as before, and the one
    new file is the config file. *)
Lemma construction_keeps_files_sample :
  files (DNSMasqServer_new "/tmp/net1" "mpbr0" "10.10.0" sample_world).2
    !! "/tmp/net1/dnsmasq.leases" = Some (Readable sample_leases)
  ∧ (files (DNSMasqServer_new "/tmp/net1" "mpbr0" "10.10.0" sample_world).2
       = files sample_world
     ∨ ∃ name,
         name ∈ ["/tmp/net1/dnsmasq-Hk3fQa.conf"; "/tmp/net1/dnsmasq-pT8zLw.conf"]
         ∧ files sample_world !! name = None
         ∧ files (DNSMasqServer_new "/tmp/net1" "mpbr0" "10.10.0" sample_world).2
             = <[name := Readable ""]> (files sample_world)
         ∧ ∀ s, (DNSMasqServer_new "/tmp/net1" "mpbr0" "10.10.0" sample_world).1
                  = Returns s →
             fileName (conf_file s) = name).
Proof.
  destruct (construction_keeps_files "/tmp/net1" "mpbr0" "10.10.0" sample_world)
    as [Hkept Hadded].
  split; [|exact Hadded].
  apply (Hkept "/tmp/net1/dnsmasq.leases" (Readable sample_leases)).
  vm_compute. reflexivity.
Defined.

(** A life: construction, a health check, a release, and the daemon
    rewriting the lease file in between. *)
Lemma sample_life :
  rtc step
    (sample_server, (DNSMasqServer_new "/tmp/net1" "mpbr0" "10.10.0" bare_world).2)
    (perform (call_release_mac "52:54:00:12:34:56")
       ((perform call_check_dnsmasq_running
           (sample_server,
            (DNSMasqServer_new "/tmp/net1" "mpbr0" "10.10.0" bare_world).2)).2.1,
        stubborn_world)).2.
Proof.
  eapply rtc_l; [apply (step_call call_check_dnsmasq_running)|].
  destruct (perform call_check_dnsmasq_running _).2 as [s w].
  eapply rtc_l; [apply (step_outside s w stubborn_world)|].
  apply rtc_once, (step_call (call_release_mac "52:54:00:12:34:56")).
Defined.

Lemma sample_construction :
  DNSMasqServer_new "/tmp/net1" "mpbr0" "10.10.0" bare_world =
    (Returns sample_server,
     (DNSMasqServer_new "/tmp/net1" "mpbr0" "10.10.0" bare_world).2).
Proof. vm_compute. reflexivity. Defined.

Lemma configuration_is_kept_sample :
  ∃ s',
    s' = (perform (call_release_mac "52:54:00:12:34:56")
            ((perform call_check_dnsmasq_running
                (sample_server,
                 (DNSMasqServer_new "/tmp/net1" "mpbr0" "10.10.0" bare_world).2)).2.1,
             stubborn_world)).2.1
    ∧ data_dir s' = "/tmp/net1" ∧ bridge_name s' = "mpbr0"
    ∧ subnet s' = "10.10.0"
    ∧ conf_file s' = conf_file sample_server
    ∧ ∃ p, dnsmasq_cmd s' = Some p
           ∧ process_spec p =
               {| spec_data_dir := "/tmp/net1"; spec_bridge_name := "mpbr0";
                  spec_subnet := "10.10.0";
                  spec_conf_file_path := fileName (conf_file sample_server) |}.
Proof.
  eexists. split; [reflexivity|].
  refine (configuration_is_kept "/tmp/net1" "mpbr0" "10.10.0" bare_world
            sample_server _ _ _ sample_construction _).
  rewrite <- surjective_pairing. exact sample_life.
Defined.

Lemma no_null_process_in_life_sample :
  (check_dnsmasq_running
     (perform (call_release_mac "52:54:00:12:34:56")
        ((perform call_check_dnsmasq_running
            (sample_server,
             (DNSMasqServer_new "/tmp/net1" "mpbr0" "10.10.0"
                bare_world).2)).2.1,
         stubborn_world)).2).1 ≠ NullDereference
  ∧ (DNSMasqServer_delete
       (perform (call_release_mac "52:54:00:12:34:56")
          ((perform call_check_dnsmasq_running
              (sample_server,
               (DNSMasqServer_new "/tmp/net1" "mpbr0" "10.10.0"
                  bare_world).2)).2.1,
           stubborn_world)).2).1 = Returns tt.
Proof.
  pose proof sample_life as Hlife.
  destruct (perform (call_release_mac "52:54:00:12:34:56") _).2 as [s' w'].
  destruct (no_null_process_in_life "/tmp/net1" "mpbr0" "10.10.0" bare_world
              sample_server _ s' w' sample_construction Hlife)
    as (_ & Hcheck & _ & Hdelete).
  split; [exact Hcheck|exact Hdelete].
Defined.

(** The daemon of [sample_server] is gone and a new one starts. *)
Lemma restart_replaces_the_process_sample :
  ∃ s' w',
    check_dnsmasq_running (sample_server, recovering_world)
      = (Returns tt, (s', w'))
    ∧ dnsmasq_cmd s' = Some {| pid := 1; process_spec := spec_of sample_server |}
    ∧ finish_connection s' = FinishedOf 1
    ∧ spec_of s' = spec_of sample_server
    ∧ new_events recovering_world w' =
        [EvLog warning "dnsmasq" "Not running";
         EvLog debug "dnsmasq" "Starting dnsmasq";
         EvCreateProcess {| pid := 1; process_spec := spec_of sample_server |};
         EvStart 1; EvWaitForStarted 1 true; EvConnectFinished 1].
Proof.
  exact (restart_replaces_the_process sample_server recovering_world _
           eq_refl eq_refl eq_refl).
Defined.

(** A helper that crashes: two warnings, four outward calls. *)
Lemma release_mac_logs_each_failure_sample :
  count is_warning
    (new_events stubborn_world
       (release_mac "52:54:00:12:34:56" (sample_server, stubborn_world)).2.2)
    = 2%nat
  ∧ length
      (new_events stubborn_world
         (release_mac "52:54:00:12:34:56" (sample_server, stubborn_world)).2.2)
    = 4%nat.
Proof.
  refine (release_mac_logs_each_failure sample_server stubborn_world
            "52:54:00:12:34:56" (IPAddress_from_string "10.10.0.5") _).
  vm_compute. reflexivity.
Defined.

(** A missing lease file, and a lease file whose IP fields the
    constructor takes. *)
Lemma get_ip_for_checked_tolerant_sample :
  get_ip_for_checked dotted_quad_rejects "52:54:00:12:34:56"
    (sample_server, bare_world) = (Returns None, (sample_server, bare_world))
  ∧ get_ip_for_checked dotted_quad_rejects "52:54:00:12:34:56"
      (sample_server, sample_world)
    = get_ip_for "52:54:00:12:34:56" (sample_server, sample_world).
Proof.
  split.
  - refine (proj1 (get_ip_for_checked_tolerant dotted_quad_rejects
                     sample_server bare_world "52:54:00:12:34:56") _).
    intros content Hfile. vm_compute in Hfile. discriminate Hfile.
  - refine (proj2 (proj2 (proj2 (proj2
              (get_ip_for_checked_tolerant dotted_quad_rejects
                 sample_server sample_world "52:54:00:12:34:56")))) _).
    intros l Hin _ _. each_member Hin; vm_compute; reflexivity.
Defined.

(** C3 fails for a record cut inside the IP address: the line has three
    fields and the address, the constructor throws for its field 2, and
    the exception leaves [get_ip_for]. *)
Lemma torn_ip_field_throws :
  getlines torn_leases =
    ["1700000100 52:54:00:ab:cd:ef 10.10.0.6 hostB * * *";
     "1700000000 52:54:00:12:34:56 10.10"]
  ∧ fields_of "1700000000 52:54:00:12:34:56 10.10"
      = ["1700000000"; "52:54:00:12:34:56"; "10.10"]
  ∧ dotted_quad_rejects "10.10" = Some "invalid IP octet"
  ∧ dotted_quad_rejects "10.10.0.6" = None
  ∧ (get_ip_for_checked dotted_quad_rejects "52:54:00:12:34:56"
       (sample_server, torn_world)).1 = Throws "invalid IP octet"
  ∧ (get_ip_for_checked dotted_quad_rejects "52:54:00:ab:cd:ef"
       (sample_server, torn_world)).1
      = Returns (Some (IPAddress_from_string "10.10.0.6")).
Proof. repeat split; vm_compute; reflexivity. Qed.

End MoreSamples.
